(** * HTML extractor and pagination traversal: a shallow embedding

    The development follows [extract_html_content.py] and [api.py].

    - Python [str] values are byte strings (UTF-8); whitespace, digits and
      case are the ASCII ones.
    - A parsed document (a [BeautifulSoup] object) is a forest of [node]s;
      parsing itself belongs to the library and is not modelled.
    - What the program asks of [urllib], of the CSS selector engine and of
      the built-in [hash] is collected in the class [Libs].
    - The browser session, the page loader and the job store are inputs of
      the traversal functions ([UrlMode.World], [JsMode.World]). In the
      control-driven loop the search for the next control and the click
      (lines 572-1047) are taken by their result, one [JsMode.activation]
      per turn; the counters, the duplicate guard, the page numbering and
      the exits of the loop are modelled as written. *)

From stdpp Require Import base strings list gmap pretty.
From Stdlib Require Import ZArith Lia Ascii String Sorted.

Open Scope string_scope.
Open Scope Z_scope.

(** ** Python built-ins on strings *)

Module Py.

Definition nl : ascii := "010"%char.

(** [bool(s)] *)
Definition truthy (s : string) : bool :=
  match s with EmptyString => false | String _ _ => true end.

(** [str.isspace] on one ASCII character: TAB..CR, FS..US and SPACE. *)
Definition is_space (a : ascii) : bool :=
  let n := nat_of_ascii a in
  ((9 <=? n)%nat && (n <=? 13)%nat) || ((28 <=? n)%nat && (n <=? 32)%nat).

Definition is_digit (a : ascii) : bool :=
  let n := nat_of_ascii a in (48 <=? n)%nat && (n <=? 57)%nat.

Fixpoint lstrip (s : string) : string :=
  match s with
  | EmptyString => EmptyString
  | String a s' => if is_space a then lstrip s' else s
  end.

Fixpoint rstrip (s : string) : string :=
  match s with
  | EmptyString => EmptyString
  | String a s' =>
      match rstrip s' with
      | EmptyString => if is_space a then EmptyString else String a EmptyString
      | r => String a r
      end
  end.

(** [s.strip()] *)
Definition strip (s : string) : string := rstrip (lstrip s).

Definition lower_ascii (a : ascii) : ascii :=
  let n := nat_of_ascii a in
  if (65 <=? n)%nat && (n <=? 90)%nat then ascii_of_nat (n + 32) else a.

(** [s.lower()] *)
Fixpoint lower (s : string) : string :=
  match s with
  | EmptyString => EmptyString
  | String a s' => String (lower_ascii a) (lower s')
  end.

(** [s.startswith(p)] *)
Fixpoint startswith (s p : string) : bool :=
  match p with
  | EmptyString => true
  | String b p' =>
      match s with
      | EmptyString => false
      | String a s' => Ascii.eqb a b && startswith s' p'
      end
  end.

(** [s.startswith((p1, p2, ...))] *)
Definition startswith_any (s : string) (ps : list string) : bool :=
  existsb (startswith s) ps.

(** [needle in hay] *)
Fixpoint contains (hay needle : string) : bool :=
  startswith hay needle ||
  match hay with
  | EmptyString => false
  | String _ hay' => contains hay' needle
  end.

(** [s.split(c)] for a one-character separator. *)
Fixpoint split (c : ascii) (s : string) : list string :=
  match s with
  | EmptyString => [EmptyString]
  | String a s' =>
      if Ascii.eqb a c then EmptyString :: split c s'
      else match split c s' with
           | [] => [String a EmptyString]
           | w :: ws => String a w :: ws
           end
  end.

(** [sep.join(parts)] *)
Definition join (sep : string) (parts : list string) : string :=
  String.concat sep parts.

(** [re.search(r'^\d+$', s)] on a stripped string: one or more digits. *)
Fixpoint all_digits (s : string) : bool :=
  match s with
  | EmptyString => true
  | String a s' => is_digit a && all_digits s'
  end.

Definition is_number (s : string) : bool := truthy s && all_digits s.

(** [s[:n] if len(s) > n else s] *)
Definition take_prefix (n : nat) (s : string) : string :=
  if (n <? String.length s)%nat then String.substring 0 n s else s.

End Py.

(** ** The document tree *)

#[warning="-register-all"]
Inductive node : Type :=
| NavigableString (s : string)
| Tag (name : string) (attrs : list (string * string)) (contents : list node).

(** A [BeautifulSoup] object: the top-level nodes of the parsed document. *)
Definition soup := list node.

Module Dom.

(** [tag.get(key)]: [None] when the attribute is absent. *)
Fixpoint get (key : string) (attrs : list (string * string)) : option string :=
  match attrs with
  | [] => None
  | (k, v) :: rest => if String.eqb k key then Some v else get key rest
  end.

(** [tag.get(key, '')] *)
Definition get_or_empty (key : string) (attrs : list (string * string)) : string :=
  default EmptyString (get key attrs).

Definition name_of (n : node) : option string :=
  match n with NavigableString _ => None | Tag nm _ _ => Some nm end.

Definition attrs_of (n : node) : list (string * string) :=
  match n with NavigableString _ => [] | Tag _ a _ => a end.

Definition attr (key : string) (n : node) : option string := get key (attrs_of n).

(** Truthiness of [tag.get(key)]: present and not empty. *)
Definition attr_truthy (key : string) (n : node) : bool :=
  match attr key n with Some v => Py.truthy v | None => false end.

Definition has_attr (key : string) (n : node) : bool :=
  match attr key n with Some _ => true | None => false end.

(** The filter [attrs={key: f}] with [f = lambda x: x and ...]: the
    attribute is present, not empty, and satisfies [f]. For [class] the
    library tries every token and then the whole value; the predicates used
    here are substring tests, for which the whole value decides. *)
Definition attr_matches (key : string) (f : string -> bool) (n : node) : bool :=
  match attr key n with Some v => Py.truthy v && f v | None => false end.

Definition name_in (names : list string) (n : node) : bool :=
  match name_of n with
  | Some nm => existsb (String.eqb nm) names
  | None => false
  end.

(** All descendants of a node, in document order. *)
Fixpoint descendants (n : node) : list node :=
  match n with
  | NavigableString _ => []
  | Tag _ _ cs => flat_map (fun c => c :: descendants c) cs
  end.

Definition soup_descendants (s : soup) : list node :=
  flat_map (fun c => c :: descendants c) s.

(** [soup.find_all(...)] and [tag.find_all(...)] with the filter [p]. *)
Definition find_all (p : node -> bool) (s : soup) : list node :=
  filter (fun n => p n = true) (soup_descendants s).

Definition find_all_in (p : node -> bool) (n : node) : list node :=
  filter (fun c => p c = true) (descendants n).

(** [soup.find(...)] and [tag.find(...)]: the first match. *)
Definition find (p : node -> bool) (s : soup) : option node := head (find_all p s).
Definition find_in (p : node -> bool) (n : node) : option node := head (find_all_in p n).

(** The text strings below a node, in document order. *)
Fixpoint all_strings (n : node) : list string :=
  match n with
  | NavigableString s => [s]
  | Tag _ _ cs => flat_map all_strings cs
  end.

Definition soup_strings (s : soup) : list string := flat_map all_strings s.

Definition stripped (ss : list string) : list string :=
  filter (fun s => Py.truthy s = true) (map Py.strip ss).

(** [tag.get_text()] *)
Definition get_text (n : node) : string := Py.join EmptyString (all_strings n).

(** [tag.get_text(strip=True)] *)
Definition get_text_strip (n : node) : string :=
  Py.join EmptyString (stripped (all_strings n)).

(** [soup.get_text(separator=sep, strip=True)] *)
Definition soup_get_text (sep : string) (s : soup) : string :=
  Py.join sep (stripped (soup_strings s)).

(** [for tag in soup(names): tag.decompose()] *)
Fixpoint decompose (names : list string) (n : node) : list node :=
  match n with
  | NavigableString _ => [n]
  | Tag nm a cs =>
      if existsb (String.eqb nm) names then []
      else [Tag nm a (flat_map (decompose names) cs)]
  end.

Definition decompose_all (names : list string) (s : soup) : soup :=
  flat_map (decompose names) s.

(** The filter of [find_all('a', href=True)]. *)
Definition is_anchor_href (n : node) : bool := name_in ["a"] n && has_attr "href" n.

End Dom.

(** ** Library functions the program calls *)

(** The six components of [urllib.parse.urlparse]. *)
Record ParseResult := {
  scheme : string;
  netloc : string;
  path : string;
  params : string;
  query : string;
  fragment : string;
}.

Class Libs := {
  (** [urllib.parse.urljoin(base, url)] *)
  urljoin : string -> string -> string;
  (** [urllib.parse.urlparse(url)] *)
  urlparse : string -> ParseResult;
  (** [soup.select(selector)]: [None] when the selector engine raises. *)
  select : string -> soup -> option (list node);
  (** the built-in [hash] on strings *)
  hash : string -> Z;
}.

(** ** Links and the content extractor *)

Record Link := {
  link_url : string;
  link_text : string;
  link_href : string;
}.

Record Extracted := {
  ex_text : string;
  ex_links : list Link;
}.

(** The loop [seen = set(); unique = []; for x in xs: if key(x) not in seen:
    seen.add(key(x)); unique.append(x)], used by the extractor (key: the url)
    and by [deduplicate_links] (key: the rendering of the link). *)
Definition dedup_step {A} (key : A -> string)
    (st : gset string * list A) (x : A) : gset string * list A :=
  if decide (key x ∈ st.1) then st else ({[ key x ]} ∪ st.1, (st.2 ++ [x])%list).

Definition dedup_by {A} (key : A -> string) (xs : list A) : list A :=
  (fold_left (dedup_step key) xs (∅, [])).2.

(** The entries the loop keeps, given the keys already seen: a recursive
    reading of the same loop, used to reason about it. *)
Fixpoint first_seen {A} (key : A -> string) (seen : gset string) (xs : list A) : list A :=
  match xs with
  | [] => []
  | x :: rest =>
      if decide (key x ∈ seen) then first_seen key seen rest
      else x :: first_seen key ({[ key x ]} ∪ seen) rest
  end.

Section Extractor.
Context `{Libs}.

Definition pseudo_inline : list string := ["javascript:"; "mailto:"; "tel:"].
Definition pseudo_listed : list string := ["javascript:"; "mailto:"; "tel:"; "#"].

Definition text_or_empty (link_text : string) : string :=
  if Py.truthy link_text then link_text else EmptyString.

(** The body of the inline loop for one anchor (lines 135-156): the string
    that replaces the anchor. [raw_href] is [a_tag.get('href', '')] and
    [link_text] is [a_tag.get_text(strip=True)]. *)
Definition inline_replacement (base_url raw_href link_text : string) : string :=
  let href := Py.strip raw_href in
  if negb (Py.truthy href) || Py.startswith_any href pseudo_inline then
    (if Py.startswith href "#" then text_or_empty link_text
     else text_or_empty link_text)
  else
    let full_url := urljoin base_url href in
    if Py.truthy link_text then link_text +:+ " — " +:+ full_url
    else full_url.

(** [a_tag.replace_with(...)] for every anchor of [find_all('a', href=True)].
    An anchor inside a replaced anchor leaves the tree with it. *)
Fixpoint inline_node (base_url : string) (n : node) : node :=
  match n with
  | NavigableString _ => n
  | Tag nm a cs =>
      if Dom.is_anchor_href n then
        NavigableString
          (inline_replacement base_url (Dom.get_or_empty "href" a) (Dom.get_text_strip n))
      else Tag nm a (map (inline_node base_url) cs)
  end.

Definition inline_links (base_url : string) (s : soup) : soup :=
  map (inline_node base_url) s.

(** Lines 159-168: text of the tree, one string per line, blank lines dropped. *)
Definition clean_lines (text : string) : list string :=
  filter (fun l => Py.truthy l = true) (map Py.strip (Py.split Py.nl text)).

Definition text_content (s : soup) : string :=
  Py.join (String Py.nl EmptyString)
          (clean_lines (Dom.soup_get_text (String Py.nl EmptyString) s)).

(** Lines 181-193: one entry per listed anchor, in document order. *)
Definition link_entry (base_url : string) (a_tag : node) : list Link :=
  let href := Py.strip (Dom.get_or_empty "href" (Dom.attrs_of a_tag)) in
  let link_text := Dom.get_text_strip a_tag in
  if negb (Py.truthy href) || Py.startswith_any href pseudo_listed then []
  else [ {| link_url := urljoin base_url href;
            link_text := if Py.truthy link_text then link_text else href;
            link_href := href |} ].

Definition collect_links (base_url : string) (s : soup) : list Link :=
  flat_map (link_entry base_url) (Dom.find_all Dom.is_anchor_href s).

(** Lines 195-202. *)
Definition remove_duplicates (links : list Link) : list Link :=
  dedup_by link_url links.

Definition opt_truthy (o : option string) : bool :=
  match o with Some s => Py.truthy s | None => false end.

(** Lines 113-126: the selector, when given, narrows the document; no match
    and a selector error both keep the whole document. The narrowed
    document is re-parsed from the serialised matches, taken here to give
    the matches back. *)
Definition apply_selector (html : soup) (selector : option string) : soup :=
  match selector with
  | Some sel =>
      if Py.truthy sel then
        match select sel html with
        | Some (e :: es) => e :: es
        | Some [] => html
        | None => html
        end
      else html
  | None => html
  end.

(** Lines 174-179: the second pass selects again, outside any [try]; a
    selector error leaves the function as an exception ([None]). *)
Definition reselect (html : soup) (selector : option string) : option soup :=
  match selector with
  | Some sel =>
      if Py.truthy sel then
        match select sel html with
        | Some (e :: es) => Some (e :: es)
        | Some [] => Some html
        | None => None
        end
      else Some html
  | None => Some html
  end.

Definition stripped_tags : list string := ["script"; "style"; "meta"; "link"; "noscript"].

(** [extract_text_with_inline_links(html, selector, include_links, base_url)];
    [None] is an exception leaving the function. *)
Definition extract_text_with_inline_links
    (html : soup) (selector : option string) (include_links : bool)
    (base_url : option string) : option Extracted :=
  let soup0 := apply_selector html selector in
  let soup1 := Dom.decompose_all stripped_tags soup0 in
  let soup2 :=
    if include_links && opt_truthy base_url
    then inline_links (default EmptyString base_url) soup1
    else soup1 in
  let text := text_content soup2 in
  if include_links && opt_truthy base_url then
    match reselect html selector with
    | Some temp_soup =>
        Some {| ex_text := text;
                ex_links := remove_duplicates
                              (collect_links (default EmptyString base_url) temp_soup) |}
    | None => None
    end
  else Some {| ex_text := text; ex_links := [] |}.

End Extractor.

(** ** Aggregation ([api.py]) *)

(** The key of [deduplicate_links] for a link dictionary. *)
Definition link_str (l : Link) : string := link_text l +:+ " — " +:+ link_url l.

(** [deduplicate_links(links)] on the link dictionaries the extractor makes. *)
Definition deduplicate_links (links : list Link) : list Link :=
  dedup_by link_str links.

(** ** Pagination-shaped URLs and pagination links *)

Module Re.

(** [re.search]: the pattern matches at the start of some suffix. *)
Fixpoint search (here : string -> bool) (s : string) : bool :=
  here s ||
  match s with
  | EmptyString => false
  | String _ s' => search here s'
  end.

(** Drop the literal [lit] (given in lower case) from the front of [s],
    ignoring case ([re.I]). *)
Fixpoint drop_ci (lit s : string) : option string :=
  match lit, s with
  | EmptyString, _ => Some s
  | String l lit', String a s' =>
      if Ascii.eqb l (Py.lower_ascii a) then drop_ci lit' s' else None
  | String _ _, EmptyString => None
  end.

Definition digit_head (s : string) : bool :=
  match s with String d _ => Py.is_digit d | EmptyString => false end.

Definition eq_digit (o : option string) : bool :=
  match o with
  | Some (String c r) => Ascii.eqb c "=" && digit_head r
  | _ => false
  end.

(** [[?&](page|p)=\d+] at the start of [s]. *)
Definition page_param_here (s : string) : bool :=
  match s with
  | String c r =>
      (Ascii.eqb c "?" || Ascii.eqb c "&") &&
      (eq_digit (drop_ci "page" r) || eq_digit (drop_ci "p" r))
  | EmptyString => false
  end.

(** [/page[_-]?\d+] at the start of [s]. *)
Definition page_path_here (s : string) : bool :=
  match s with
  | String c r =>
      Ascii.eqb c "/" &&
      match drop_ci "page" r with
      | Some t =>
          digit_head t ||
          match t with
          | String u t' => (Ascii.eqb u "_" || Ascii.eqb u "-") && digit_head t'
          | EmptyString => false
          end
      | None => false
      end
  | EmptyString => false
  end.

(** [re.search(r'[?&](page|p)=\d+', s, re.I)] *)
Definition page_param (s : string) : bool := search page_param_here s.

(** [re.search(r'/page[_-]?\d+', s, re.I)] *)
Definition page_path (s : string) : bool := search page_path_here s.

End Re.

Section Pagination.
Context `{Libs}.

Definition class_has (needles : list string) (x : string) : bool :=
  existsb (Py.contains (Py.lower x)) needles.

(** The four container filters of strategy 1 (lines 304-309). *)
Definition pagination_patterns : list (node -> bool) :=
  [ Dom.attr_matches "class" (class_has ["pagination"; "pager"]);
    Dom.attr_matches "class"
      (fun x => Py.contains (Py.lower x) "page" && class_has ["number"; "item"] x);
    Dom.attr_matches "id" (class_has ["pagination"; "pager"]);
    Dom.attr_matches "role" (class_has ["navigation"]) ].

Definition container_names : list string := ["div"; "nav"; "ul"; "ol"].

(** Lines 315-336: what one link of a container adds to the set. *)
Definition container_link (base_url base_netloc : string) (link : node) : list string :=
  let href := Py.strip (Dom.get_or_empty "href" (Dom.attrs_of link)) in
  if negb (Py.truthy href) then []
  else
    let full_url := urljoin base_url href in
    let parsed := urlparse full_url in
    if negb (String.eqb (netloc parsed) base_netloc) then []
    else if Re.page_param full_url || Re.page_path full_url then [full_url]
    else
      let text := Py.lower (Dom.get_text_strip link) in
      if existsb (Py.contains text) ["next"; "page"; ">"; "»"; "last"]
         || Py.is_number (Py.strip text)
      then [full_url] else [].

(** Lines 340-362: what one link of the document adds to the set. *)
Definition document_link (base_url base_netloc base_path : string) (link : node)
    : list string :=
  let href := Py.strip (Dom.get_or_empty "href" (Dom.attrs_of link)) in
  if negb (Py.truthy href) then []
  else
    let full_url := urljoin base_url href in
    let parsed := urlparse full_url in
    if negb (String.eqb (netloc parsed) base_netloc) then []
    else if Re.page_param full_url then
      (if String.eqb (path parsed) base_path
          || Py.startswith (path parsed) base_path
          || Py.startswith base_path (path parsed)
       then [full_url] else [])
    else if Re.page_path (path parsed) then
      (if Py.contains (path parsed) base_path || Py.contains base_path (path parsed)
       then [full_url] else [])
    else [].

Definition strategy1 (html : soup) (base_url base_netloc : string) : list string :=
  flat_map
    (fun pattern =>
       flat_map
         (fun container =>
            flat_map (container_link base_url base_netloc)
                     (Dom.find_all_in Dom.is_anchor_href container))
         (Dom.find_all (fun n => Dom.name_in container_names n && pattern n) html))
    pagination_patterns.

Definition strategy2 (html : soup) (base_url base_netloc base_path : string)
    : list string :=
  flat_map (document_link base_url base_netloc base_path)
           (Dom.find_all Dom.is_anchor_href html).

(** The set [pagination_links] when the function returns. *)
Definition pagination_link_set (html : soup) (base_url : string) : gset string :=
  let base_parsed := urlparse base_url in
  list_to_set (strategy1 html base_url (netloc base_parsed)
               ++ strategy2 html base_url (netloc base_parsed) (path base_parsed))%list.

(** [find_pagination_links(html, base_url)]: [list(pagination_links)]; the
    order of a Python set is unspecified, [elements] fixes one. *)
Definition find_pagination_links (html : soup) (base_url : string) : list string :=
  elements (pagination_link_set html base_url).

(** ** The next-page control *)

(** [btn.get('disabled') or 'disabled' in str(btn.get('class', [])).lower()] *)
Definition class_lower (n : node) : string :=
  Py.lower (Dom.get_or_empty "class" (Dom.attrs_of n)).

Definition looks_disabled (btn : node) : bool :=
  Dom.attr_truthy "disabled" btn || Py.contains (class_lower btn) "disabled".

Definition first_enabled (btns : list node) : option node :=
  head (filter (fun b => looks_disabled b = false) btns).

Definition a_or_button : list string := ["a"; "button"].

(** Priority 1 (lines 380-385). *)
Definition next_by_data_action (s : soup) : option node :=
  first_enabled
    (Dom.find_all
       (fun n => Dom.name_in a_or_button n
                 && Dom.attr_matches "data-action" (fun x => Py.contains (Py.lower x) "next") n)
       s).

(** Priority 2 (lines 388-395): per container, only its first link counts. *)
Definition next_by_container (s : soup) : option node :=
  first_enabled
    (flat_map
       (fun container => option_list (Dom.find_in Dom.is_anchor_href container))
       (Dom.find_all
          (fun n => Dom.name_in ["li"; "div"; "span"] n
                    && Dom.attr_matches "class" (fun x => Py.contains (Py.lower x) "next") n)
          s)).

(** Priority 3 (lines 398-406). *)
Definition next_by_facetwp (s : soup) : option node :=
  match Dom.find
          (fun n => Dom.name_in ["a"] n
                    && Dom.attr_matches "class"
                         (fun x => Py.contains x "facetwp-page" && Py.contains x "next") n)
          s with
  | Some facetwp_next =>
      if negb (Py.contains (class_lower facetwp_next) "disabled")
         && Dom.attr_truthy "data-page" facetwp_next
      then Some facetwp_next else None
  | None => None
  end.

(** Priority 4 (lines 409-415). *)
Definition next_by_data_page (s : soup) : option node :=
  head
    (filter
       (fun btn =>
          let classes := class_lower btn in
          let text := Py.lower (Dom.get_text_strip btn) in
          (Py.contains classes "next"
           || (Py.contains text "next"
               && (Py.contains (Dom.get_text btn) "»" || Py.contains (Dom.get_text btn) ">")))
          && negb (Py.contains classes "disabled") = true)
       (Dom.find_all (fun n => Dom.name_in a_or_button n && Dom.has_attr "data-page" n) s)).

(** Priority 5 (lines 418-431). The dictionaries are attribute filters, so the
    first two test an attribute named [text]. *)
Definition next_patterns : list (node -> bool) :=
  [ Dom.attr_matches "text"
      (fun x => Py.contains (Py.lower x) "next" && Py.contains (Py.lower x) "page");
    Dom.attr_matches "text"
      (fun x => (Py.contains (Py.lower x) "next" || Py.contains x "»" || Py.contains x ">")
                && Py.truthy (Py.strip x));
    Dom.attr_matches "class"
      (fun x => Py.contains (Py.lower x) "next" || Py.contains (Py.lower x) "pager-next");
    Dom.attr_matches "aria-label" (fun x => Py.contains (Py.lower x) "next") ].

Definition next_by_pattern (s : soup) : option node :=
  first_enabled
    (flat_map
       (fun pattern => Dom.find_all (fun n => Dom.name_in a_or_button n && pattern n) s)
       next_patterns).

Definition or_else {A} (o : option A) (k : option A) : option A :=
  match o with Some _ => o | None => k end.

(** [find_next_page_button(soup)] *)
Definition find_next_page_button (s : soup) : option node :=
  or_else (next_by_data_action s)
    (or_else (next_by_container s)
       (or_else (next_by_facetwp s)
          (or_else (next_by_data_page s) (next_by_pattern s)))).

(** ** Classification (lines 1116-1178) *)

Inductive mode := control_driven | url_traversal.

Definition placeholder_hrefs : list string := ["#"; "javascript:void(0)"].

Definition placeholder_href (n : node) : bool :=
  Dom.name_in ["a"] n &&
  match Dom.attr "href" n with
  | Some x => existsb (String.eqb x) placeholder_hrefs
  | None => false
  end.

Definition pagination_container (n : node) : bool :=
  Dom.name_in ["nav"; "ul"; "div"] n
  && Dom.attr_matches "class" (fun x => Py.contains (Py.lower x) "pagination") n.

(** Lines 1139-1145. *)
Definition has_numbered_link (container : node) : bool :=
  existsb (fun link => Py.is_number (Dom.get_text_strip link))
          (Dom.find_all_in placeholder_href container).

(** Lines 1148-1152. *)
Definition has_next_prev (container : node) : bool :=
  existsb
    (fun btn =>
       Dom.attr_truthy "data-action" btn
       || Py.contains (Py.lower (Dom.get_text_strip btn)) "next"
       || Py.contains (Py.lower (Dom.get_text_strip btn)) "prev")
    (Dom.find_all_in placeholder_href container).

Definition facetwp_pagination (s : soup) : option node :=
  Dom.find (fun n => Dom.name_in ["div"] n
                     && Dom.attr_matches "class" (fun x => Py.contains (Py.lower x) "facetwp") n)
           s.

Definition has_data_page (s : soup) : list node :=
  Dom.find_all (fun n => Dom.name_in a_or_button n && Dom.has_attr "data-page" n) s.

Definition same_path_query (u v : string) : bool :=
  String.eqb (path (urlparse u)) (path (urlparse v))
  && String.eqb (query (urlparse u)) (query (urlparse v)).

(** Lines 1164-1178: the test on the next control. *)
Definition next_button_is_js (start_url : string) (next_button : node) : bool :=
  let next_href := Dom.get_or_empty "href" (Dom.attrs_of next_button) in
  if negb (Py.truthy next_href)
     || existsb (String.eqb next_href) [""; "#"; "javascript:void(0)"]
  then true
  else same_path_query (urljoin start_url next_href) start_url.

(** The classification of a loaded page, first rule first. *)
Definition classify (html : soup) (start_url : string) : mode :=
  let next_button := find_next_page_button html in
  if bool_decide (is_Some (facetwp_pagination html))
     || (bool_decide (has_data_page html <> []) && bool_decide (is_Some next_button))
  then control_driven
  else if existsb (fun c => has_numbered_link c || has_next_prev c)
                  (Dom.find_all pagination_container html)
  then control_driven
  else match next_button with
       | Some b => if next_button_is_js start_url b then control_driven else url_traversal
       | None => url_traversal
       end.

End Pagination.

(** ** Traversal results *)

Record PageResult := {
  pr_url : string;
  page_number : Z;
  pr_text : string;
  pr_links : list Link;
}.

(** Why a traversal stopped. The program reports the reason on its log only;
    here each [break], [return] and loop exit carries its name. *)
Inductive stop_reason :=
| cancelled            (* the job store says cancelled *)
| limit_reached        (* the page cap or the safety ceiling *)
| queue_empty          (* URL mode: nothing left to visit *)
| content_stable       (* control mode: unchanged content *)
| explicit_last_page   (* control mode: an "X of Y" or last-page marker *)
| no_next_control      (* control mode: no usable next control *)
| activation_failed.   (* control mode: the control could not be triggered *)

(** A traversal returns its list, or an exception leaves it ([Raised], with
    the list as it stood). *)
Inductive outcome :=
| Returned (pages : list PageResult) (why : stop_reason)
| Raised (pages : list PageResult).

Definition appended (o : outcome) : list PageResult :=
  match o with Returned ps _ => ps | Raised ps => ps end.

Definition SAFETY_LIMIT : Z := 1000.

(** [max_pages if has_pagination else 1000] *)
Definition page_limit (has_pagination : bool) (max_pages : Z) : Z :=
  if has_pagination then max_pages else SAFETY_LIMIT.

(** What one counted page contributes: nothing ([None]: it failed to load or
    gave no text) or an entry ([Some]). [pages_of c events] numbers the
    counted pages from [c + 1] on and keeps the entries. *)
Fixpoint pages_of (c : Z) (events : list (option (string * Extracted)))
    : list PageResult :=
  match events with
  | [] => []
  | None :: rest => pages_of (c + 1) rest
  | Some (u, e) :: rest =>
      {| pr_url := u; page_number := c + 1;
         pr_text := ex_text e; pr_links := ex_links e |} :: pages_of (c + 1) rest
  end.


Definition page_numbers (ps : list PageResult) : list Z := map page_number ps.




(** ** URL traversal (lines 1181-1274) *)

Module UrlMode.

(** What the outside answers: the cancellation flag at the [k]-th turn of
    the loop, and the page loader (no page, or an empty one, is [None]). *)
Record World := {
  is_cancelled : nat -> bool;
  load_page : string -> option soup;
}.

Record State := {
  all_text_parts : list PageResult;
  visited_urls : gset string;
  urls_to_visit : list string;
  page_count : Z;
}.

Section Loop.
Context `{Libs}.
Variable w : World.
Variables (selector : option string) (include_links has_pagination : bool).
Variable max_iterations : Z.

(** Lines 1243-1249. *)
Definition valid_pagination_links (url : string) (pagination_links : list string)
    : list string :=
  filter
    (fun pag_url =>
       negb (String.eqb (path (urlparse pag_url)) (path (urlparse url)))
       || negb (String.eqb (query (urlparse pag_url)) (query (urlparse url))) = true)
    pagination_links.

(** Lines 1253-1256. *)
Definition enqueue (visited : gset string) (queue : list string) (pag_url : string)
    : list string :=
  if bool_decide (pag_url ∉ visited) && bool_decide (pag_url ∉ queue)
  then (queue ++ [pag_url])%list else queue.

(** The loop; [remaining] is [max_iterations - iteration], so the guard
    [iteration < max_iterations] is [remaining <> 0], and [k] is [iteration]. *)
Fixpoint loop (remaining : nat) (k : nat) (st : State) : outcome :=
  match urls_to_visit st with
  | [] => Returned (all_text_parts st) queue_empty
  | url :: rest =>
      match remaining with
      | O => Returned (all_text_parts st) limit_reached
      | S remaining' =>
          if is_cancelled w k then Returned (all_text_parts st) cancelled
          else if bool_decide (url ∈ visited_urls st) then
            loop remaining' (S k)
                 {| all_text_parts := all_text_parts st;
                    visited_urls := visited_urls st;
                    urls_to_visit := rest;
                    page_count := page_count st |}
          else
            let visited := {[ url ]} ∪ visited_urls st in
            let count := page_count st + 1 in
            if has_pagination && (max_iterations <? count)
            then Returned (all_text_parts st) limit_reached
            else
              match load_page w url with
              | None =>
                  loop remaining' (S k)
                       {| all_text_parts := all_text_parts st;
                          visited_urls := visited;
                          urls_to_visit := rest;
                          page_count := count |}
              | Some html =>
                  match extract_text_with_inline_links html selector include_links
                                                       (Some url) with
                  | None => Raised (all_text_parts st)
                  | Some extracted =>
                      if Py.truthy (ex_text extracted) then
                        loop remaining' (S k)
                             {| all_text_parts :=
                                  (all_text_parts st ++
                                   [ {| pr_url := url;
                                        page_number := count;
                                        pr_text := ex_text extracted;
                                        pr_links := ex_links extracted |} ])%list;
                                visited_urls := visited;
                                urls_to_visit :=
                                  fold_left (enqueue visited) 
                                    (valid_pagination_links url (find_pagination_links html url))
                                    rest;
                                page_count := count |}
                      else
                        loop remaining' (S k)
                             {| all_text_parts := all_text_parts st;
                                visited_urls := visited;
                                urls_to_visit := rest;
                                page_count := count |}
                  end
              end
      end
  end.

(** The address gives a page with text. *)
Definition yields (url : string) : Prop :=
  exists html e,
    load_page w url = Some html
    /\ extract_text_with_inline_links html selector include_links (Some url) = Some e
    /\ Py.truthy (ex_text e) = true.

Definition initial (start_url : string) : State :=
  {| all_text_parts := []; visited_urls := ∅; urls_to_visit := [start_url];
     page_count := 0 |}.

Definition run (start_url : string) : outcome :=
  loop (Z.to_nat max_iterations) 0 (initial start_url).

End Loop.
End UrlMode.

(** ** Control-driven traversal ([extract_with_js_pagination]) *)

Module JsMode.

(** How one turn of the loop ends after the extraction (lines 572-1047):
    which exit the markup and the browser lead to. *)
Inductive activation :=
| last_page_seen     (* lines 575-663: a last-page indicator, [break] *)
| next_missing       (* line 764: no next control, [break] *)
| next_disabled      (* line 857: the control is disabled, [break] *)
| next_goes_back     (* line 868: the control would not advance, [break] *)
| not_clicked        (* line 1005: no click strategy worked, [break] *)
| clicked            (* lines 1037-1039: clicked and settled *)
| click_error.       (* lines 1041-1047: an exception after the click *)

(** One turn as the outside answers it: the cancellation flag, the markup
    of [page.content()], and how the activation goes. *)
Record Turn := {
  is_cancelled : bool;
  content : soup;
  next : activation;
}.

Record World := {
  goto_ok : bool;            (* the initial [page.goto] and waits succeed *)
  turn : nat -> Turn;
}.

Record State := {
  all_text_parts : list PageResult;
  page_count : Z;
  consecutive_no_next : Z;
  previous_content_hash : option Z;
  consecutive_same_content : Z;
}.

Section Loop.
Context `{Libs}.
Variable w : World.
Variable start_url : string.
Variables (selector : option string) (include_links has_pagination : bool).
Variable max_pages_limit : Z.

(** Lines 544-556: the duplicate guard. [None] is the [break]; otherwise the
    two variables it leaves. *)
Definition duplicate_guard (text : string) (st : State) : option (option Z * Z) :=
  let text_to_hash := Py.take_prefix 2000 text in
  let content_hash := hash text_to_hash in
  if bool_decide (Some content_hash = previous_content_hash st) then
    let same := consecutive_same_content st + 1 in
    if 2 <=? same then None else Some (previous_content_hash st, same)
  else Some (Some content_hash, 0).

Definition page_entry (count : Z) (extracted : Extracted) : PageResult :=
  {| pr_url := start_url +:+ " (page " +:+ pretty count +:+ ")";
     page_number := count;
     pr_text := ex_text extracted;
     pr_links := ex_links extracted |}.

(** Lines 572-1047 on the state after the extraction step. *)
Definition activate (a : activation) (st : State) : State + stop_reason :=
  match a with
  | last_page_seen => inr explicit_last_page
  | next_missing => inr no_next_control
  | next_disabled => inr no_next_control
  | next_goes_back => inr explicit_last_page
  | not_clicked => inr activation_failed
  | clicked =>
      inl {| all_text_parts := all_text_parts st;
             page_count := page_count st;
             consecutive_no_next := 0;
             previous_content_hash := previous_content_hash st;
             consecutive_same_content := 0 |}
  | click_error =>
      let failures := consecutive_no_next st + 1 in
      if 3 <=? failures then inr activation_failed
      else inl {| all_text_parts := all_text_parts st;
                  page_count := page_count st;
                  consecutive_no_next := failures;
                  previous_content_hash := previous_content_hash st;
                  consecutive_same_content := consecutive_same_content st |}
  end.

(** Lines 526-570: count the page, extract, guard, append. [inr] is a
    [break] or an exception. *)
Definition extract_step (t : Turn) (st : State) : State + outcome :=
  let count := page_count st + 1 in
  if has_pagination && (max_pages_limit <? count)
  then inr (Returned (all_text_parts st) limit_reached)
  else
    match extract_text_with_inline_links (content t) selector include_links
                                         (Some start_url) with
    | None => inr (Raised (all_text_parts st))
    | Some extracted =>
        if Py.truthy (ex_text extracted) then
          match duplicate_guard (ex_text extracted) st with
          | None => inr (Returned (all_text_parts st) content_stable)
          | Some (previous, same) =>
              inl {| all_text_parts :=
                       (all_text_parts st ++ [page_entry count extracted])%list;
                     page_count := count;
                     consecutive_no_next := consecutive_no_next st;
                     previous_content_hash := previous;
                     consecutive_same_content := same |}
          end
        else
          inl {| all_text_parts := all_text_parts st;
                 page_count := count;
                 consecutive_no_next := consecutive_no_next st;
                 previous_content_hash := previous_content_hash st;
                 consecutive_same_content := consecutive_same_content st |}
    end.

(** The loop; [remaining] is [max_pages_limit - page_count], so the guard
    [page_count < max_pages_limit] is [remaining <> 0], and [k] counts the
    turns. *)
Fixpoint loop (remaining : nat) (k : nat) (st : State) : outcome :=
  match remaining with
  | O => Returned (all_text_parts st) limit_reached
  | S remaining' =>
      let t := turn w k in
      if is_cancelled t then Returned (all_text_parts st) cancelled
      else
        match extract_step t st with
        | inr o => o
        | inl st1 =>
            match activate (next t) st1 with
            | inr why => Returned (all_text_parts st1) why
            | inl st2 => loop remaining' (S k) st2
            end
        end
  end.

(** The turn gives a page with text. *)
Definition yields (t : Turn) : Prop :=
  exists e,
    extract_text_with_inline_links (content t) selector include_links (Some start_url)
      = Some e
    /\ Py.truthy (ex_text e) = true.

Definition initial : State :=
  {| all_text_parts := []; page_count := 0; consecutive_no_next := 0;
     previous_content_hash := None; consecutive_same_content := 0 |}.

(** [extract_pages()]: a failing initial load raises before the loop. *)
Definition run : outcome :=
  if goto_ok w then loop (Z.to_nat max_pages_limit) 0 initial else Raised [].

End Loop.
End JsMode.

(** ** The orchestrator ([extract_all_pages_recursive]) *)

Record World := {
  first_load : option soup;     (* the load that classifies the start page *)
  url_world : UrlMode.World;
  js_world : JsMode.World;
}.

Section Orchestrator.
Context `{Libs}.

Definition extract_with_js_pagination (w : JsMode.World) (start_url : string)
    (selector : option string) (include_links has_pagination : bool) (max_pages : Z)
    : outcome :=
  JsMode.run w start_url selector include_links has_pagination
             (page_limit has_pagination max_pages).

Definition url_pagination (w : UrlMode.World) (start_url : string)
    (selector : option string) (include_links has_pagination : bool) (max_pages : Z)
    : outcome :=
  UrlMode.run w selector include_links has_pagination
              (page_limit has_pagination max_pages) start_url.

(** The traversal mode the orchestrator takes. *)
Definition dispatch (w : World) (start_url : string) (use_js : bool) : mode :=
  if use_js then
    match first_load w with
    | Some html => classify html start_url
    | None => url_traversal
    end
  else url_traversal.

Definition extract_all_pages_recursive (w : World) (start_url : string) (use_js : bool)
    (selector : option string) (include_links has_pagination : bool) (max_pages : Z)
    : outcome :=
  match dispatch w start_url use_js with
  | control_driven =>
      extract_with_js_pagination (js_world w) start_url selector include_links
                                 has_pagination max_pages
  | url_traversal =>
      url_pagination (url_world w) start_url selector include_links
                     has_pagination max_pages
  end.

(** Every address and every turn gives a page with text. *)
Definition all_pages_yield (w : World) (start_url : string)
    (selector : option string) (include_links : bool) : Prop :=
  (forall u, UrlMode.yields (url_world w) selector include_links u)
  /\ (forall j, JsMode.yields start_url selector include_links
                  (JsMode.turn (js_world w) j)).

(** Lines 227-239 of [api.py]: the session-wide link list. *)
Definition all_links (include_links : bool) (result : list PageResult) : list Link :=
  flat_map (fun page_data => if include_links then pr_links page_data else []) result.

Definition unique_links (include_links : bool) (result : list PageResult) : list Link :=
  deduplicate_links (all_links include_links result).

End Orchestrator.

(** ** A concrete library instance for closed examples

    A small URL library that agrees with [urllib.parse] on URLs of the form
    [scheme://host/path?query#fragment] (no parameters, no dot segments) and
    on references that are absolute, or start with [/], [?] or [#], or are
    plain relative paths; class selectors only; a polynomial hash. *)

Module Ref.

(** Split at the first [c]: the part before, and the part after if any. *)
Fixpoint cut (c : ascii) (s : string) : string * option string :=
  match s with
  | EmptyString => (EmptyString, None)
  | String a s' =>
      if Ascii.eqb a c then (EmptyString, Some s')
      else let '(before, after) := cut c s' in (String a before, after)
  end.

Definition is_scheme_char (a : ascii) : bool :=
  let n := nat_of_ascii (Py.lower_ascii a) in
  ((97 <=? n)%nat && (n <=? 122)%nat) || Py.is_digit a
  || Ascii.eqb a "+" || Ascii.eqb a "-" || Ascii.eqb a ".".

Fixpoint all_scheme_chars (s : string) : bool :=
  match s with
  | EmptyString => true
  | String a s' => is_scheme_char a && all_scheme_chars s'
  end.

(** Scheme and the rest, when the text before the first colon is a scheme. *)
Definition split_scheme (s : string) : string * string :=
  match cut ":" s with
  | (before, Some after) =>
      if Py.truthy before && all_scheme_chars before
         && negb (Re.digit_head before)
      then (Py.lower before, after) else (EmptyString, s)
  | (_, None) => (EmptyString, s)
  end.

(** Host and path of what follows the scheme. *)
Definition split_netloc (s : string) : string * string :=
  match s with
  | String "/" (String "/" r) =>
      match cut "/" r with
      | (host, Some p) => (host, String "/" p)
      | (host, None) => (host, EmptyString)
      end
  | _ => (EmptyString, s)
  end.

Definition urlparse (u : string) : ParseResult :=
  let '(no_fragment, frag) := cut "#" u in
  let '(no_query, qry) := cut "?" no_fragment in
  let '(sch, rest) := split_scheme no_query in
  let '(host, p) := split_netloc rest in
  {| scheme := sch; netloc := host; path := p; params := EmptyString;
     query := default EmptyString qry; fragment := default EmptyString frag |}.

Definition urlunparse (r : ParseResult) : string :=
  (if Py.truthy (netloc r) then scheme r +:+ "://" +:+ netloc r
   else if Py.truthy (scheme r) then scheme r +:+ ":" else EmptyString)
  +:+ path r
  +:+ (if Py.truthy (query r) then "?" +:+ query r else EmptyString)
  +:+ (if Py.truthy (fragment r) then "#" +:+ fragment r else EmptyString).

(** The path up to and including its last [/]. *)
Fixpoint directory (p : string) : string :=
  match p with
  | EmptyString => EmptyString
  | String a p' =>
      if Py.contains p "/" then String a (directory p') else EmptyString
  end.

Definition urljoin (base url : string) : string :=
  if negb (Py.truthy base) then url
  else if negb (Py.truthy url) then base
  else
    let b := urlparse base in
    let r := urlparse url in
    if Py.truthy (scheme r) then url
    else if Py.truthy (netloc r) then
      urlunparse {| scheme := scheme b; netloc := netloc r; path := path r;
                    params := EmptyString; query := query r; fragment := fragment r |}
    else if negb (Py.truthy (path r)) then
      urlunparse {| scheme := scheme b; netloc := netloc b; path := path b;
                    params := EmptyString;
                    query := if Py.truthy (query r) then query r else query b;
                    fragment := fragment r |}
    else if Py.startswith (path r) "/" then
      urlunparse {| scheme := scheme b; netloc := netloc b; path := path r;
                    params := EmptyString; query := query r; fragment := fragment r |}
    else
      urlunparse {| scheme := scheme b; netloc := netloc b;
                    path := (if Py.truthy (directory (path b))
                             then directory (path b) else "/") +:+ path r;
                    params := EmptyString; query := query r; fragment := fragment r |}.

(** The class tokens of an attribute value. *)
Definition tokens (v : string) : list string :=
  filter (fun t => Py.truthy t = true) (Py.split " " v).

(** [select(".name")]: the elements carrying the class; any other selector
    string counts as malformed. *)
Definition select (sel : string) (s : soup) : option (list node) :=
  match sel with
  | String "." cls =>
      if Py.truthy cls then
        Some (Dom.find_all
                (fun n => match Dom.attr "class" n with
                          | Some v => bool_decide (cls ∈ tokens v)
                          | None => false
                          end) s)
      else None
  | _ => None
  end.

Fixpoint hash_from (acc : Z) (s : string) : Z :=
  match s with
  | EmptyString => acc
  | String a s' => hash_from ((acc * 31 + Z.of_nat (nat_of_ascii a)) mod 2305843009213693951) s'
  end.

Definition hash (s : string) : Z := hash_from 7 s.

End Ref.

#[global] Instance ref_libs : Libs :=
  {| urljoin := Ref.urljoin; urlparse := Ref.urlparse;
     select := Ref.select; hash := Ref.hash |}.

(** ** Sample documents and sessions *)

Definition two_anchor_page : soup :=
  [ Tag "p" []
      [ Tag "a" [("href", "/more")] [NavigableString "More"];
        Tag "a" [("href", "https://a.test/more")] [NavigableString "Read more"] ] ].

Definition more_link (t : string) : Link :=
  {| link_url := "https://a.test/more"; link_text := t; link_href := "/more" |}.

Definition listing_page (n : Z) (t : string) : PageResult :=
  {| pr_url := "https://a.test/list?page=" +:+ pretty n; page_number := n;
     pr_text := t +:+ " — https://a.test/more"; pr_links := [more_link t] |}.

Definition pager_block : node :=
  Tag "ul" [("class", "pager")]
    [ Tag "li" [("class", "next")]
        [ Tag "a" [("href", "?page=2")] [NavigableString "Next"] ] ].

Definition plain_pager_page : soup :=
  [ Tag "p" [] [NavigableString "Staff A"]; pager_block ].

Definition widget_pager_page : soup :=
  [ Tag "div" [("class", "facetwp-template")] [NavigableString "Staff A"]; pager_block ].

Definition next_anchor : node :=
  Tag "a" [("href", "?page=2")] [NavigableString "Next"].

Definition mixed_pager_page : soup :=
  [ Tag "div" [("class", "pagination")]
      [ Tag "a" [("href", "?page=2")] [NavigableString "2"];
        Tag "a" [("href", "https://b.test/list?page=3")] [NavigableString "3"];
        Tag "a" [("href", "/list?page=4")] [NavigableString "4"] ] ].

Definition stuck_page : soup :=
  [ Tag "p" [] [NavigableString "Staff Z"];
    Tag "button" [("class", "next")] [NavigableString "Next"] ].

Definition steady_turn : JsMode.Turn :=
  {| JsMode.is_cancelled := false; JsMode.content := stuck_page;
     JsMode.next := JsMode.clicked |}.

(** A session whose next control always clicks and never changes the page. *)
Definition stuck_session : JsMode.World :=
  {| JsMode.goto_ok := true; JsMode.turn := fun _ => steady_turn |}.

Definition staff_page (name : string) (pages : list string) : soup :=
  [ Tag "p" [] [NavigableString name];
    Tag "div" [("class", "pagination")]
      (map (fun n => Tag "a" [("href", "?page=" +:+ n)] [NavigableString n]) pages) ].

(** A listing of four pages; the one at [?page=2] does not load. *)
Definition flaky_site : UrlMode.World :=
  {| UrlMode.is_cancelled := fun _ => false;
     UrlMode.load_page := fun u =>
       if String.eqb u "https://a.test/list" then Some (staff_page "Staff A" ["2"; "3"])
       else if String.eqb u "https://a.test/list?page=3"
            then Some (staff_page "Staff C" ["4"])
       else if String.eqb u "https://a.test/list?page=4"
            then Some (staff_page "Staff D" [])
       else None |}.

Definition flaky_world : World :=
  {| first_load := None; url_world := flaky_site; js_world := stuck_session |}.

(** A session whose second turn shows a page without text. *)
Definition thin_session : JsMode.World :=
  {| JsMode.goto_ok := true;
     JsMode.turn := fun k =>
       match k with
       | O => steady_turn
       | S O => {| JsMode.is_cancelled := false;
                   JsMode.content := [Tag "button" [("class", "next")] []];
                   JsMode.next := JsMode.clicked |}
       | _ => {| JsMode.is_cancelled := false; JsMode.content := stuck_page;
                 JsMode.next := JsMode.next_missing |}
       end |}.

(** A listing of three pages, each with the same "More" link. *)
Definition more_page (name : string) : soup :=
  [ Tag "p" [] [NavigableString name];
    Tag "a" [("href", "/more")] [NavigableString "More"];
    Tag "div" [("class", "pagination")]
      [ Tag "a" [("href", "?page=2")] [NavigableString "2"];
        Tag "a" [("href", "?page=3")] [NavigableString "3"] ] ].

Definition listing_site : UrlMode.World :=
  {| UrlMode.is_cancelled := fun _ => false;
     UrlMode.load_page := fun u =>
       if String.eqb u "https://a.test/list" then Some (more_page "Staff A")
       else if String.eqb u "https://a.test/list?page=2" then Some (more_page "Staff B")
       else if String.eqb u "https://a.test/list?page=3" then Some (more_page "Staff C")
       else None |}.

(** Every address loads the same page, every turn shows it. *)
Definition steady_world : World :=
  {| first_load := Some stuck_page;
     url_world := {| UrlMode.is_cancelled := fun _ => false;
                     UrlMode.load_page := fun _ => Some stuck_page |};
     js_world := stuck_session |}.


(** ** Further functions of [extract_html_content.py] *)

Module Text.

(** [c in s] for one character. *)
Fixpoint has_char (c : ascii) (s : string) : bool :=
  match s with
  | EmptyString => false
  | String a s' => Ascii.eqb a c || has_char c s'
  end.

(** [s.replace(old, new)] for one-character arguments. *)
Fixpoint replace_char (old new : ascii) (s : string) : string :=
  match s with
  | EmptyString => EmptyString
  | String a s' =>
      String (if Ascii.eqb a old then new else a) (replace_char old new s')
  end.

Fixpoint lstrip_char (c : ascii) (s : string) : string :=
  match s with
  | EmptyString => EmptyString
  | String a s' => if Ascii.eqb a c then lstrip_char c s' else s
  end.

Fixpoint rstrip_char (c : ascii) (s : string) : string :=
  match s with
  | EmptyString => EmptyString
  | String a s' =>
      match rstrip_char c s' with
      | EmptyString => if Ascii.eqb a c then EmptyString else String a EmptyString
      | r => String a r
      end
  end.

(** [s.strip(c)] for one character. *)
Definition strip_char (c : ascii) (s : string) : string :=
  rstrip_char c (lstrip_char c s).

(** [re.sub('[...]', '', s)] for a character class. *)
Fixpoint remove_chars (cs : list ascii) (s : string) : string :=
  match s with
  | EmptyString => EmptyString
  | String a s' =>
      if existsb (Ascii.eqb a) cs then remove_chars cs s'
      else String a (remove_chars cs s')
  end.

(** [s.split(c, 1)]: the part before the first [c], and the part after it
    when [c] occurs. *)
Fixpoint partition (c : ascii) (s : string) : string * option string :=
  match s with
  | EmptyString => (EmptyString, None)
  | String a s' =>
      if Ascii.eqb a c then (EmptyString, Some s')
      else let '(before, after) := partition c s' in (String a before, after)
  end.

End Text.

Section FurtherExtractor.
Context `{Libs}.

(** Lines 66-74: [select_one] keeps the first match; no match and a selector
    error both keep the whole document. *)
Definition links_soup (html : soup) (selector : option string) : soup :=
  match selector with
  | Some sel =>
      if Py.truthy sel then
        match select sel html with
        | Some (target_element :: _) => [target_element]
        | Some [] => html
        | None => html
        end
      else html
  | None => html
  end.

(** Lines 80-104: the body of the loop over the anchors. *)
Definition links_step (base_url : string) (st : gset string * list Link) (a_tag : node)
    : gset string * list Link :=
  let href := Py.strip (Dom.get_or_empty "href" (Dom.attrs_of a_tag)) in
  let link_text := Dom.get_text_strip a_tag in
  if negb (Py.truthy href) then st
  else
    let full_url := urljoin base_url href in
    if Py.startswith_any href pseudo_listed then st
    else
      let link_entry :=
        {| link_url := full_url;
           link_text := if Py.truthy link_text then link_text else href;
           link_href := href |} in
      if decide (full_url ∈ st.1) then st
      else ({[ full_url ]} ∪ st.1, (st.2 ++ [link_entry])%list).

(** [extract_links_from_html(html, base_url, selector)] *)
Definition extract_links_from_html (html : soup) (base_url : string)
    (selector : option string) : list Link :=
  (fold_left (links_step base_url)
             (Dom.find_all Dom.is_anchor_href (links_soup html selector)) (∅, [])).2.

(** A well-formed entry: the href is not empty and not a pseudo-address, the
    url is the href resolved against the base, and the text is not empty. *)
Definition listed_entry (base_url : string) (l : Link) : Prop :=
  Py.truthy (link_href l) = true
  /\ Py.startswith_any (link_href l) pseudo_listed = false
  /\ link_url l = urljoin base_url (link_href l)
  /\ Py.truthy (link_text l) = true.

(** The character class of line 49: less-than, greater-than, colon, double
    quote, bar, question mark and star. *)
Definition forbidden_chars : list ascii :=
  ["<"; ">"; ":"; "034"; "|"; "?"; "*"]%char.

(** A name without the characters of line 49. *)
Definition clean_name (s : string) : Prop :=
  Forall (fun c => Text.has_char c s = false) forbidden_chars.

(** Lines 37-53: the name before the time stamp is appended. *)
Definition filename_stem (url : string) (max_length : nat) : string :=
  let parsed := urlparse url in
  let domain := Text.replace_char ":" "_" (Text.replace_char "." "_" (netloc parsed)) in
  let path := Text.replace_char "\" "_"
                (Text.replace_char "/" "_" (Text.strip_char "/" (path parsed))) in
  let filename := if Py.truthy path then domain +:+ "_" +:+ path else domain in
  let filename := Text.remove_chars forbidden_chars filename in
  Py.take_prefix max_length filename.

(** [sanitize_filename(url, max_length)]; [timestamp] is
    [datetime.now().strftime("%Y%m%d_%H%M%S")]. *)
Definition sanitize_filename (timestamp url : string) (max_length : nat) : string :=
  filename_stem url max_length +:+ "_" +:+ timestamp.

End FurtherExtractor.

Module ReLoose.

Definition digit_or_eq_digit (o : option string) : bool :=
  match o with
  | Some t =>
      Re.digit_head t ||
      match t with
      | String c r => Ascii.eqb c "=" && Re.digit_head r
      | EmptyString => false
      end
  | None => false
  end.

(** [[?&](page|p)=?\d+] at the start of [s]. *)
Definition page_param_here (s : string) : bool :=
  match s with
  | String c r =>
      (Ascii.eqb c "?" || Ascii.eqb c "&") &&
      (digit_or_eq_digit (Re.drop_ci "page" r) || digit_or_eq_digit (Re.drop_ci "p" r))
  | EmptyString => false
  end.

(** [re.search(r'[?&](page|p)=?\d+', s, re.I)] *)
Definition page_param (s : string) : bool := Re.search page_param_here s.

End ReLoose.

(** [detect_pagination_from_urls(urls)] *)
Definition detect_pagination_from_urls (urls : list string) : list string :=
  filter (fun url => ReLoose.page_param url || Re.page_path url = true) urls.

(** An element of the document that is an [a] or a [button] and whose class
    does not contain "disabled". *)
Definition usable_control (s : soup) (b : node) : Prop :=
  b ∈ Dom.soup_descendants s
  /\ Dom.name_in a_or_button b = true
  /\ Py.contains (class_lower b) "disabled" = false.

(** Lines 227-255 of [api.py]: what [process_extraction] stores for a result. *)
Record ExtractionDoc := {
  doc_content : string;
  doc_links : list Link;
  doc_pages_extracted : nat;
  doc_total_characters : nat;
  doc_total_links : nat;
}.

(** Lines 230-233: the texts that are joined. *)
Definition combined_text_parts (result : list PageResult) : list string :=
  filter (fun page_text => Py.truthy page_text = true) (map pr_text result).

Definition blank_line : string := String Py.nl (String Py.nl EmptyString).

(** Lines 221-255: an exception in the extraction and an empty result both
    end in the failure branch ([None]); otherwise the document is built. *)
Definition extraction_doc (include_links : bool) (o : outcome) : option ExtractionDoc :=
  match o with
  | Raised _ => None
  | Returned [] _ => None
  | Returned result _ =>
      let combined_content := Py.join blank_line (combined_text_parts result) in
      let links := unique_links include_links result in
      Some {| doc_content := combined_content;
              doc_links := links;
              doc_pages_extracted := List.length result;
              doc_total_characters := String.length combined_content;
              doc_total_links := List.length links |}
  end.

(** ** Saved files, [combine_outputs.py] and batch input *)

Definition newline : string := String Py.nl EmptyString.



(** Lines 54-55 of [combine_outputs.py]: the first line of the content. *)
Definition source_url (content : string) : string :=
  default EmptyString (head (Py.split Py.nl content)).

(** [f"{n:,}"]: decimal digits in groups of three. *)
Fixpoint group_digits (digits_from_right : list ascii) : list ascii :=
  match digits_from_right with
  | a :: b :: c :: (d :: _) as rest => a :: b :: c :: ","%char :: group_digits rest
  | short => short
  end.

Definition with_commas (n : nat) : string :=
  string_of_list_ascii
    (rev (group_digits (rev (list_ascii_of_string (pretty (N.of_nat n)))))).

Definition rule_line : string :=
  String.concat EmptyString (repeat "=" 80).

Record Combined := {
  combined_lines : list string;
  total_files : nat;
  total_size : nat;
}.

(** Lines 40-77: one turn of the loop over the files. [read] is the content
    of the file, or [None] when reading it raises. *)
Definition combine_step (acc : Combined) (file : nat * (string * option string))
    : Combined :=
  let '(idx, (name, read)) := file in
  match read with
  | None => acc
  | Some raw =>
      let content := Py.strip raw in
      if negb (Py.truthy content) then acc
      else
        let file_size := String.length content in
        let url := source_url content in
        {| combined_lines :=
             (combined_lines acc ++
              [ rule_line;
                "FILE " +:+ pretty (N.of_nat idx) +:+ ": " +:+ name;
                "SOURCE URL: " +:+ url;
                "FILE SIZE: " +:+ with_commas file_size +:+ " characters";
                rule_line;
                EmptyString;
                content;
                EmptyString;
                EmptyString ])%list;
           total_files := S (total_files acc);
           total_size := (total_size acc + file_size)%nat |}
  end.

(** [combine_all_text_files()] up to the writing of the output: [directory]
    is the sorted list of text files, or [None] when the folder is missing;
    the result is [None] where the function returns [False]. *)
Definition combine_all_text_files (directory : option (list (string * option string)))
    : option Combined :=
  match directory with
  | None => None
  | Some [] => None
  | Some txt_files =>
      let result :=
        fold_left combine_step
          (combine (seq 1 (List.length txt_files)) txt_files)
          {| combined_lines := []; total_files := 0; total_size := 0 |} in
      match combined_lines result with
      | [] => None
      | _ => Some result
      end
  end.

(** A file that contributes a block: readable and not blank. *)
Definition has_content (file : string * option string) : bool :=
  match file.2 with
  | Some raw => Py.truthy (Py.strip raw)
  | None => false
  end.

Record Pair := {
  pair_url : string;
  pair_selector : string;
}.

(** Lines 1466-1475: what one line of the text file adds to the pairs. *)
Definition parse_line (raw : string) : list Pair :=
  let line := Py.strip raw in
  if negb (Py.truthy line) || Py.startswith line "#" then []
  else
    match Text.partition "|" line with
    | (url, Some selector) =>
        [ {| pair_url := Py.strip url; pair_selector := Py.strip selector |} ]
    | (_, None) => [ {| pair_url := Py.strip line; pair_selector := EmptyString |} ]
    end.

(** [load_batch_from_text(text_file)]: [file] is the lines of the file, or
    [None] when opening or reading it raises. *)
Definition load_batch_from_text (file : option (list string)) : list Pair :=
  match file with
  | Some lines => flat_map parse_line lines
  | None => []
  end.

Inductive batch_status := batch_success | batch_failed | batch_error.

Record BatchResult := {
  br_url : string;
  br_selector : option string;
  br_status : batch_status;
  br_pages_extracted : option nat;
}.

Section Batch.
Context `{Libs}.

(** What the outside answers for a batch: the world each address is
    extracted in, and whether writing its file succeeds. *)
Variable world_of : string -> World.
Variable save_ok : string -> bool.
Variables (use_js include_links : bool).

(** Lines 1372-1375: an address without a scheme gets [https://]. *)
Definition with_scheme (url : string) : string :=
  if Py.truthy (scheme (urlparse url)) then url else "https://" +:+ url.

(** Lines 1364-1421: one turn of the loop over the pairs. *)
Definition process_pair (pair : Pair) : list BatchResult :=
  let url := Py.strip (pair_url pair) in
  let selector :=
    if Py.truthy (Py.strip (pair_selector pair))
    then Some (Py.strip (pair_selector pair)) else None in
  if negb (Py.truthy url) then []
  else
    let url := with_scheme url in
    match extract_all_pages_recursive (world_of url) url use_js selector include_links
                                      false 1 with
    | Raised _ =>
        [ {| br_url := url; br_selector := selector; br_status := batch_error;
             br_pages_extracted := None |} ]
    | Returned [] _ =>
        [ {| br_url := url; br_selector := selector; br_status := batch_failed;
             br_pages_extracted := None |} ]
    | Returned content_data _ =>
        if save_ok url then
          [ {| br_url := url; br_selector := selector; br_status := batch_success;
               br_pages_extracted := Some (List.length content_data) |} ]
        else
          [ {| br_url := url; br_selector := selector; br_status := batch_error;
               br_pages_extracted := None |} ]
    end.

(** [process_batch(url_selector_pairs, use_js, wait_time, include_links)] *)
Definition process_batch (url_selector_pairs : list Pair) : list BatchResult :=
  flat_map process_pair url_selector_pairs.

End Batch.

(** A page has text. *)
Definition has_text (p : PageResult) : Prop := Py.truthy (pr_text p) = true.

Definition listing_world : World :=
  {| first_load := None; url_world := listing_site; js_world := stuck_session |}.

Definition failing_session : JsMode.World :=
  {| JsMode.goto_ok := true;
     JsMode.turn := fun _ => {| JsMode.is_cancelled := false;
                                JsMode.content := stuck_page;
                                JsMode.next := JsMode.click_error |} |}.

(** * Properties *)

(** ** Order-preserving deduplication *)

Section Dedup.
Context {A : Type} (key : A -> string).

Lemma fold_dedup_step xs seen acc :
  (fold_left (dedup_step key) xs (seen, acc)).2 = (acc ++ first_seen key seen xs)%list.
Proof.
  revert seen acc. induction xs as [|x rest IH]; intros seen acc; simpl.
  - by rewrite app_nil_r.
  - unfold dedup_step at 2; simpl. destruct (decide (key x ∈ seen)).
    + apply IH.
    + rewrite IH. by rewrite <- app_assoc.
Qed.

Lemma dedup_by_first_seen xs : dedup_by key xs = first_seen key ∅ xs.
Proof. unfold dedup_by. by rewrite fold_dedup_step. Qed.

Lemma first_seen_fresh xs : forall seen x,
  x ∈ first_seen key seen xs -> (key x ∉ seen) /\ (x ∈ xs).
Proof.
  induction xs as [|y rest IH]; intros seen x Hx; simpl in Hx.
  - by apply elem_of_nil in Hx.
  - destruct (decide (key y ∈ seen)).
    + destruct (IH _ _ Hx) as [Hn Hin]. split; [done | by right].
    + apply elem_of_cons in Hx as [-> | Hx]; [split; [done | by left] |].
      destruct (IH _ _ Hx) as [Hn Hin]. split; [set_solver | by right].
Qed.

Lemma first_seen_NoDup xs : forall seen, NoDup (map key (first_seen key seen xs)).
Proof.
  induction xs as [|y rest IH]; intros seen; simpl; [constructor |].
  destruct (decide (key y ∈ seen)); [apply IH |].
  simpl. constructor; [| apply IH].
  intros Hin. apply list_elem_of_In, in_map_iff in Hin as (z & Hk & Hz).
  apply list_elem_of_In, first_seen_fresh in Hz as [Hz _]. set_solver.
Qed.


Lemma dedup_by_NoDup xs : NoDup (map key (dedup_by key xs)).
Proof. rewrite dedup_by_first_seen. apply first_seen_NoDup. Qed.



End Dedup.

(** ** The content extractor *)

Section ExtractorFacts.
Context `{Libs}.

Lemma text_or_empty_id t : text_or_empty t = t.
Proof. by destruct t. Qed.

(** [javascript:], [mailto:] and [tel:] anchors, and anchors with an empty
    href, are replaced by their text alone. *)
Lemma inline_replacement_pseudo base_url raw_href t :
  Py.truthy (Py.strip raw_href) = false
  \/ Py.startswith_any (Py.strip raw_href) pseudo_inline = true ->
  inline_replacement base_url raw_href t = t.
Proof.
  intros Hc. unfold inline_replacement.
  assert (negb (Py.truthy (Py.strip raw_href))
          || Py.startswith_any (Py.strip raw_href) pseudo_inline = true) as ->.
  { destruct Hc as [-> | ->]; [done | apply orb_true_r]. }
  destruct (Py.startswith _ "#"); apply text_or_empty_id.
Qed.

(** Every other anchor is replaced by its text, a dash and the resolved
    address, or by the address alone when it has no text. *)
Lemma inline_replacement_other base_url raw_href t :
  Py.truthy (Py.strip raw_href) = true ->
  Py.startswith_any (Py.strip raw_href) pseudo_inline = false ->
  inline_replacement base_url raw_href t =
  if Py.truthy t then t +:+ " — " +:+ urljoin base_url (Py.strip raw_href)
  else urljoin base_url (Py.strip raw_href).
Proof. intros Ht Hp. unfold inline_replacement. by rewrite Ht, Hp. Qed.

Lemma fragment_is_not_pseudo_inline href :
  Py.startswith href "#" = true ->
  Py.truthy href = true /\ Py.startswith_any href pseudo_inline = false.
Proof.
  destruct href as [|a s]; [done |]. simpl.
  destruct (Ascii.eqb_spec a "#") as [-> | ?]; [done | discriminate].
Qed.

(** A fragment anchor falls in the second case: the test of line 139 does not
    list ["#"], and the branch of line 141 is never taken for it. *)
Lemma inline_replacement_fragment base_url raw_href t :
  Py.startswith (Py.strip raw_href) "#" = true ->
  inline_replacement base_url raw_href t =
  if Py.truthy t then t +:+ " — " +:+ urljoin base_url (Py.strip raw_href)
  else urljoin base_url (Py.strip raw_href).
Proof.
  intros Hf. destruct (fragment_is_not_pseudo_inline _ Hf).
  by apply inline_replacement_other.
Qed.

Lemma length_append s t :
  String.length (s +:+ t) = (String.length s + String.length t)%nat.
Proof. induction s as [|a s IH]; simpl; [done | by rewrite IH]. Qed.

Lemma append_dash_longer t u : t +:+ " — " +:+ u <> t.
Proof.
  intros Heq. apply (f_equal String.length) in Heq.
  rewrite !length_append in Heq. simpl in Heq. lia.
Qed.






End ExtractorFacts.

(** C5, evaluated on a fragment anchor: [<a href="#top">Top</a>] on the page
    [https://site.example/page] comes out with the resolved address attached,
    where the visible text alone was expected. *)
Theorem fragment_anchor_gets_url :
  extract_text_with_inline_links
    [Tag "a" [("href", "#top")] [NavigableString "Top"]]
    None true (Some "https://site.example/page")
  = Some {| ex_text := "Top — https://site.example/page#top"; ex_links := [] |}.
Proof. vm_compute. reflexivity. Qed.

(** The other pseudo-addresses are handled as described. *)
Example mailto_anchor_keeps_text :
  extract_text_with_inline_links
    [Tag "a" [("href", "mailto:dean@site.example")] [NavigableString "Dean"]]
    None true (Some "https://site.example/page")
  = Some {| ex_text := "Dean"; ex_links := [] |}.
Proof. vm_compute. reflexivity. Qed.

Example relative_anchor_resolved :
  extract_text_with_inline_links
    [Tag "a" [("href", "/about")] [NavigableString "About"]]
    None true (Some "https://site.example/dir/page")
  = Some {| ex_text := "About — https://site.example/about";
            ex_links := [ {| link_url := "https://site.example/about";
                             link_text := "About"; link_href := "/about" |} ] |}.
Proof. vm_compute. reflexivity. Qed.

Section ExtractorClaims.
Context `{Libs}.


(** C9: without links, or without a base address, no anchor is replaced and
    the list of links is empty. *)
Theorem no_links_without_base html selector include_links base_url :
  include_links = false \/ opt_truthy base_url = false ->
  extract_text_with_inline_links html selector include_links base_url =
  Some {| ex_text := text_content
                       (Dom.decompose_all stripped_tags (apply_selector html selector));
          ex_links := [] |}.
Proof.
  intros Hc. unfold extract_text_with_inline_links.
  assert (include_links && opt_truthy base_url = false) as ->; [| done].
  destruct Hc as [-> | ->]; [done | apply andb_false_r].
Qed.

End ExtractorClaims.

(** Two anchors, one address, two texts: one entry with the first text, and
    both occurrences in the text. *)
Example two_anchor_page_extracted :
  extract_text_with_inline_links two_anchor_page None true (Some "https://a.test/list")
  = Some {| ex_text := "More — https://a.test/more" +:+ String Py.nl
                       "Read more — https://a.test/more";
            ex_links := [ {| link_url := "https://a.test/more";
                             link_text := "More"; link_href := "/more" |} ] |}.
Proof. vm_compute. reflexivity. Qed.


Lemma no_links_without_base_witness :
  extract_text_with_inline_links two_anchor_page None false (Some "https://a.test/list")
  = Some {| ex_text := "More" +:+ String Py.nl "Read more"; ex_links := [] |}.
Proof.
  rewrite (no_links_without_base two_anchor_page None false (Some "https://a.test/list"))
    by (left; reflexivity).
  vm_compute. reflexivity.
Defined.

(** ** Aggregation *)



(** The same link on every page yields one entry. *)
Example same_link_on_three_pages :
  unique_links true [listing_page 1 "More"; listing_page 2 "More"; listing_page 3 "More"]
  = [more_link "More"].
Proof. vm_compute. reflexivity. Qed.

(** ** Pagination links stay on the host *)

Section PaginationFacts.
Context `{Libs}.

Lemma container_link_netloc base_url base_netloc link u :
  u ∈ container_link base_url base_netloc link ->
  netloc (urlparse u) = base_netloc.
Proof.
  unfold container_link.
  destruct (negb (Py.truthy _)); [by intros ?%elem_of_nil |].
  destruct (String.eqb_spec (netloc (urlparse (urljoin base_url
              (Py.strip (Dom.get_or_empty "href" (Dom.attrs_of link)))))) base_netloc)
    as [Heq | Hne]; simpl; [| by intros ?%elem_of_nil].
  destruct (_ || _).
  - by intros ->%list_elem_of_singleton.
  - destruct (_ || _); [by intros ->%list_elem_of_singleton | by intros ?%elem_of_nil].
Qed.

Lemma document_link_netloc base_url base_netloc base_path link u :
  u ∈ document_link base_url base_netloc base_path link ->
  netloc (urlparse u) = base_netloc.
Proof.
  unfold document_link.
  destruct (negb (Py.truthy _)); [by intros ?%elem_of_nil |].
  destruct (String.eqb_spec (netloc (urlparse (urljoin base_url
              (Py.strip (Dom.get_or_empty "href" (Dom.attrs_of link)))))) base_netloc)
    as [Heq | Hne]; simpl; [| by intros ?%elem_of_nil].
  destruct (Re.page_param _).
  - destruct (_ || _); [by intros ->%list_elem_of_singleton | by intros ?%elem_of_nil].
  - destruct (Re.page_path _); [| by intros ?%elem_of_nil].
    destruct (_ || _); [by intros ->%list_elem_of_singleton | by intros ?%elem_of_nil].
Qed.

Lemma strategy1_netloc html base_url base_netloc u :
  u ∈ strategy1 html base_url base_netloc -> netloc (urlparse u) = base_netloc.
Proof.
  unfold strategy1. intros Hu.
  apply list_elem_of_In, in_flat_map in Hu as (pattern & _ & Hu).
  apply in_flat_map in Hu as (container & _ & Hu).
  apply in_flat_map in Hu as (link & _ & Hu).
  by apply list_elem_of_In, container_link_netloc in Hu.
Qed.

Lemma strategy2_netloc html base_url base_netloc base_path u :
  u ∈ strategy2 html base_url base_netloc base_path ->
  netloc (urlparse u) = base_netloc.
Proof.
  unfold strategy2. intros Hu.
  apply list_elem_of_In, in_flat_map in Hu as (link & _ & Hu).
  by apply list_elem_of_In, document_link_netloc in Hu.
Qed.

(** C10: every address that pagination-link discovery returns has the host
    of the page it was found on. *)
Theorem pagination_links_same_host html base_url :
  Forall (fun u => netloc (urlparse u) = netloc (urlparse base_url))
         (find_pagination_links html base_url).
Proof.
  apply Forall_forall. intros u Hu. unfold find_pagination_links in Hu.
  apply elem_of_elements in Hu. unfold pagination_link_set in Hu.
  apply elem_of_list_to_set, elem_of_app in Hu as [Hu | Hu].
  - by apply strategy1_netloc in Hu.
  - by apply strategy2_netloc in Hu.
Qed.

(** ** Classification *)

Lemma classify_placeholder_next html start_url b :
  find_next_page_button html = Some b ->
  next_button_is_js start_url b = true ->
  classify html start_url = control_driven.
Proof.
  intros Hb Hjs. unfold classify. rewrite Hb.
  destruct (_ || _); [done |]. destruct (existsb _ _); [done |]. by rewrite Hjs.
Qed.

(** C6, amended: a next control whose href is ["#"], or whose target has the
    path and query of the current page, makes the page control-driven; a next
    control whose target has another query leads to URL traversal when no
    earlier rule fires (no FacetWP block, no [data-page] control, no
    placeholder links in a pagination container). *)
Theorem classify_by_next_control html start_url b :
  find_next_page_button html = Some b ->
  let href := Dom.get_or_empty "href" (Dom.attrs_of b) in
  (href = "#" -> classify html start_url = control_driven)
  /\ (same_path_query (urljoin start_url href) start_url = true ->
      classify html start_url = control_driven)
  /\ (facetwp_pagination html = None ->
      has_data_page html = [] ->
      existsb (fun c => has_numbered_link c || has_next_prev c)
              (Dom.find_all pagination_container html) = false ->
      Py.truthy href = true -> href <> "#" -> href <> "javascript:void(0)" ->
      query (urlparse (urljoin start_url href)) <> query (urlparse start_url) ->
      classify html start_url = url_traversal).
Proof.
  intros Hb href. subst href.
  remember (Dom.get_or_empty "href" (Dom.attrs_of b)) as href eqn:Hhref.
  split; [| split].
  - intros Hh. apply (classify_placeholder_next _ _ _ Hb).
    unfold next_button_is_js. rewrite <- Hhref. by rewrite Hh.
  - intros Hs. apply (classify_placeholder_next _ _ _ Hb).
    unfold next_button_is_js. rewrite <- Hhref. rewrite Hs. by destruct (_ || _).
  - intros Hf Hd He Ht Hn1 Hn2 Hq. unfold classify. rewrite Hb, Hf, Hd, He. simpl.
    unfold next_button_is_js. rewrite <- Hhref. rewrite Ht. simpl.
    destruct (String.eqb_spec href "") as [e|_]; [by rewrite e in Ht |].
    destruct (String.eqb_spec href "#"); [done |].
    destruct (String.eqb_spec href "javascript:void(0)"); [done |]. simpl.
    unfold same_path_query.
    destruct (String.eqb_spec (query (urlparse (urljoin start_url href)))
                              (query (urlparse start_url))); [done |].
    by rewrite andb_false_r.
Qed.

End PaginationFacts.

(** C6 as stated fails: the next control resolves to [?page=2] while the
    current page is [?page=1], yet a FacetWP block on the page makes the
    classification control-driven. *)
Lemma next_with_other_query_not_url_mode :
  find_next_page_button widget_pager_page = Some next_anchor
  /\ urljoin "https://a.test/list?page=1" "?page=2" = "https://a.test/list?page=2"
  /\ classify widget_pager_page "https://a.test/list?page=1" = control_driven
  /\ classify widget_pager_page "https://a.test/list?page=1" <> url_traversal.
Proof.
  assert (E : classify widget_pager_page "https://a.test/list?page=1" = control_driven)
    by (vm_compute; reflexivity).
  repeat split; try (vm_compute; reflexivity). by rewrite E.
Qed.

Lemma classify_by_next_control_witness :
  find_next_page_button plain_pager_page = Some next_anchor
  /\ classify plain_pager_page "https://a.test/list?page=1" = url_traversal.
Proof.
  assert (Hb : find_next_page_button plain_pager_page = Some next_anchor)
    by (vm_compute; reflexivity).
  split; [exact Hb |].
  destruct (classify_by_next_control plain_pager_page "https://a.test/list?page=1"
              next_anchor Hb) as (_ & _ & Hurl).
  apply Hurl; try (vm_compute; reflexivity); vm_compute; discriminate.
Defined.

Example classify_hash_next :
  classify [ Tag "a" [("href", "#"); ("class", "next")] [NavigableString "Next"] ]
           "https://a.test/list" = control_driven.
Proof. vm_compute. reflexivity. Qed.

(** The link to another host is left out. *)
Example mixed_pager_links :
  find_pagination_links mixed_pager_page "https://a.test/list"
  = ["https://a.test/list?page=2"; "https://a.test/list?page=4"].
Proof. vm_compute. reflexivity. Qed.

(** ** Page numbering *)

Lemma pages_of_length c events :
  (List.length (pages_of c events) <= List.length events)%nat.
Proof.
  revert c. induction events as [|[[u e]|] rest IH]; intros c; simpl; [lia | |].
  - specialize (IH (c + 1)). lia.
  - specialize (IH (c + 1)). lia.
Qed.

Lemma pages_of_bounds c events :
  Forall (fun p => c < page_number p <= c + Z.of_nat (List.length events))
         (pages_of c events).
Proof.
  revert c. induction events as [|[[u e]|] rest IH]; intros c; simpl; [constructor | |].
  - constructor; [simpl; lia |].
    eapply Forall_impl; [apply (IH (c + 1)) |]. simpl. intros p Hp. lia.
  - eapply Forall_impl; [apply (IH (c + 1)) |]. simpl. intros p Hp. lia.
Qed.




(** ** The control-driven loop *)

Module JsFacts.
Import JsMode.

Section Facts.
Context `{Libs}.
Variable w : World.
Variable start_url : string.
Variables (selector : option string) (include_links has_pagination : bool).
Variable max_pages_limit : Z.

Abbreviation step := (extract_step start_url selector include_links has_pagination
                               max_pages_limit).
Abbreviation run_loop := (loop w start_url selector include_links has_pagination
                           max_pages_limit).
Abbreviation yields := (JsMode.yields start_url selector include_links).

Lemma extract_step_inr t st o :
  step t st = inr o ->
  appended o = all_text_parts st
  /\ (forall ps, o = Returned ps content_stable -> 2 <= consecutive_same_content st + 1).
Proof.
  unfold extract_step. destruct (_ && _).
  { intros [= <-]. split; [done | intros ps [=]]. }
  destruct (extract_text_with_inline_links _ _ _ _) as [e|];
    [| intros [= <-]; split; [done | intros ps [=]]].
  destruct (Py.truthy (ex_text e)); [| done].
  unfold duplicate_guard. destruct (bool_decide _); [| done].
  destruct (2 <=? consecutive_same_content st + 1) eqn:E; [| done].
  intros [= <-]. split; [done | intros _ _; lia].
Qed.

Lemma extract_step_inl t st st1 :
  step t st = inl st1 ->
  page_count st1 = page_count st + 1
  /\ consecutive_no_next st1 = consecutive_no_next st
  /\ exists ev,
       all_text_parts st1 = (all_text_parts st ++ pages_of (page_count st) [ev])%list
       /\ (yields t -> is_Some ev).
Proof.
  unfold extract_step. destruct (_ && _); [done |].
  destruct (extract_text_with_inline_links _ _ _ _) as [e|] eqn:Ee; [| done].
  destruct (Py.truthy (ex_text e)) eqn:Et.
  - destruct (duplicate_guard _ _) as [[previous same]|]; [| done].
    intros [= <-]. simpl. split; [done |]. split; [done |].
    exists (Some (start_url +:+ " (page " +:+ pretty (page_count st + 1) +:+ ")", e)).
    split; [done | by eexists].
  - intros [= <-]. simpl. split; [done |]. split; [done |].
    exists None. split; [by rewrite app_nil_r |].
    intros (e' & He' & Ht'). rewrite Ee in He'. injection He' as <-. congruence.
Qed.

Lemma activate_inl a st st2 :
  activate a st = inl st2 ->
  all_text_parts st2 = all_text_parts st /\ page_count st2 = page_count st.
Proof.
  destruct a; simpl; try done.
  - by intros [= <-].
  - destruct (3 <=? _); [done |]. by intros [= <-].
Qed.

(** The list a run leaves: what it started with, then the counted pages of
    at most [remaining] turns. *)
Lemma js_loop_shape remaining : forall k st,
  exists events,
    (List.length events <= remaining)%nat
    /\ appended (run_loop remaining k st)
       = (all_text_parts st ++ pages_of (page_count st) events)%list
    /\ ((forall j, yields (turn w j)) -> Forall (fun ev => is_Some ev) events).
Proof.
  induction remaining as [|n IH]; intros k st; simpl.
  { exists []. simpl. by rewrite app_nil_r. }
  destruct (is_cancelled (turn w k)).
  { exists []. simpl. rewrite app_nil_r. split; [lia | done]. }
  destruct (step (turn w k) st) as [st1 | o] eqn:Es.
  - apply extract_step_inl in Es as (Hc & _ & ev & Hp & Hy).
    destruct (activate (next (turn w k)) st1) as [st2 | why] eqn:Ea.
    + apply activate_inl in Ea as [Hp2 Hc2].
      destruct (IH (S k) st2) as (evs & Hlen & Happ & Hall).
      exists (ev :: evs). split; [simpl; lia |]. split.
      * rewrite Happ, Hp2, Hc2, Hp, Hc, <- app_assoc. f_equal.
        simpl. by destruct ev as [[u e]|].
      * intros Hyields. constructor; [by apply Hy | by apply Hall].
    + exists [ev]. split; [simpl; lia |]. split; [done |].
      intros Hyields. constructor; [by apply Hy | constructor].
  - apply extract_step_inr in Es as [Ho _]. exists []. simpl. rewrite app_nil_r.
    split; [lia | done].
Qed.


(** The duplicate guard needs a counter of at least one at the head of a
    turn, and a turn that ends in a successful click leaves it at zero. *)
Lemma js_loop_never_stable remaining : forall k st,
  consecutive_same_content st = 0 ->
  (forall j, next (turn w j) <> click_error) ->
  forall ps, run_loop remaining k st <> Returned ps content_stable.
Proof.
  induction remaining as [|n IH]; intros k st Hz Hne ps; simpl; [done |].
  destruct (is_cancelled (turn w k)); [done |].
  destruct (step (turn w k) st) as [st1 | o] eqn:Es.
  - destruct (activate (next (turn w k)) st1) as [st2 | why] eqn:Ea.
    + apply IH; [| done]. specialize (Hne k).
      destruct (next (turn w k)); simpl in Ea; try done.
      by injection Ea as <-.
    + specialize (Hne k).
      destruct (next (turn w k)); simpl in Ea; try congruence.
  - apply extract_step_inr in Es as [_ Hs]. intros ->.
    specialize (Hs _ eq_refl). lia.
Qed.

End Facts.
End JsFacts.

(** ** The URL loop *)

Module UrlFacts.
Import UrlMode.

Section Facts.
Context `{Libs}.
Variable w : World.
Variables (selector : option string) (include_links has_pagination : bool).
Variable max_iterations : Z.

Abbreviation run_loop := (loop w selector include_links has_pagination max_iterations).
Abbreviation yields := (UrlMode.yields w selector include_links).

(** The list a run leaves: what it started with, then the counted pages of
    at most [remaining] turns. *)
Lemma url_loop_shape remaining : forall k st,
  exists events,
    (List.length events <= remaining)%nat
    /\ appended (run_loop remaining k st)
       = (all_text_parts st ++ pages_of (page_count st) events)%list
    /\ ((forall u, yields u) -> Forall (fun ev => is_Some ev) events).
Proof.
  assert (Hstop : forall (n : nat) (ps : list PageResult) c,
            exists events : list (option (string * Extracted)),
              (List.length events <= n)%nat
              /\ ps = (ps ++ pages_of c events)%list
              /\ ((forall u, yields u) -> Forall (fun ev => is_Some ev) events)).
  { intros n ps c. exists []. simpl. rewrite app_nil_r. split; [lia | done]. }
  induction remaining as [|n IH]; intros k st; simpl.
  { destruct (urls_to_visit st); apply Hstop. }
  destruct (urls_to_visit st) as [|url rest]; [apply Hstop |].
  destruct (is_cancelled w k); [apply Hstop |].
  destruct (bool_decide (url ∈ visited_urls st)).
  { destruct (IH (S k) {| all_text_parts := all_text_parts st;
                          visited_urls := visited_urls st;
                          urls_to_visit := rest;
                          page_count := page_count st |})
      as (evs & Hlen & Happ & Hall).
    exists evs. split; [lia | done]. }
  destruct (has_pagination && (max_iterations <? page_count st + 1)); [apply Hstop |].
  destruct (load_page w url) as [html|] eqn:El.
  - destruct (extract_text_with_inline_links html selector include_links (Some url))
      as [e|] eqn:Ee; [| apply Hstop].
    destruct (Py.truthy (ex_text e)) eqn:Et.
    + match goal with |- context [run_loop n (S k) ?s] =>
        destruct (IH (S k) s) as (evs & Hlen & Happ & Hall) end.
      exists (Some (url, e) :: evs). split; [simpl; lia |]. split.
      * rewrite Happ. simpl. by rewrite <- app_assoc.
      * intros Hy. constructor; [by eexists | by apply Hall].
    + match goal with |- context [run_loop n (S k) ?s] =>
        destruct (IH (S k) s) as (evs & Hlen & Happ & Hall) end.
      exists (None :: evs). split; [simpl; lia |]. split; [done |].
      intros Hy. destruct (Hy url) as (html' & e' & Hl' & He' & Ht'). congruence.
  - match goal with |- context [run_loop n (S k) ?s] =>
      destruct (IH (S k) s) as (evs & Hlen & Happ & Hall) end.
    exists (None :: evs). split; [simpl; lia |]. split; [done |].
    intros Hy. destruct (Hy url) as (html' & e' & Hl' & He' & Ht'). congruence.
Qed.


End Facts.
End UrlFacts.

(** ** Traversals as a whole *)

Section TraversalFacts.
Context `{Libs}.

Lemma js_shape jw start_url selector include_links has_pagination max_pages :
  exists events,
    (List.length events <= Z.to_nat (page_limit has_pagination max_pages))%nat
    /\ appended (extract_with_js_pagination jw start_url selector include_links
                                            has_pagination max_pages)
       = pages_of 0 events
    /\ ((forall j, JsMode.yields start_url selector include_links (JsMode.turn jw j))
        -> Forall (fun ev => is_Some ev) events).
Proof.
  unfold extract_with_js_pagination, JsMode.run.
  destruct (JsMode.goto_ok jw).
  - apply (JsFacts.js_loop_shape jw start_url selector include_links has_pagination
             (page_limit has_pagination max_pages)
             (Z.to_nat (page_limit has_pagination max_pages)) 0%nat JsMode.initial).
  - exists []. split; [simpl; lia | done].
Qed.

Lemma url_shape uw start_url selector include_links has_pagination max_pages :
  exists events,
    (List.length events <= Z.to_nat (page_limit has_pagination max_pages))%nat
    /\ appended (url_pagination uw start_url selector include_links
                                has_pagination max_pages)
       = pages_of 0 events
    /\ ((forall u, UrlMode.yields uw selector include_links u)
        -> Forall (fun ev => is_Some ev) events).
Proof.
  apply (UrlFacts.url_loop_shape uw selector include_links has_pagination
           (page_limit has_pagination max_pages)
           (Z.to_nat (page_limit has_pagination max_pages)) 0%nat
           (UrlMode.initial start_url)).
Qed.

Lemma traversal_shape w start_url use_js selector include_links has_pagination max_pages :
  exists events,
    (List.length events <= Z.to_nat (page_limit has_pagination max_pages))%nat
    /\ appended (extract_all_pages_recursive w start_url use_js selector include_links
                                             has_pagination max_pages)
       = pages_of 0 events
    /\ (all_pages_yield w start_url selector include_links
        -> Forall (fun ev => is_Some ev) events).
Proof.
  unfold extract_all_pages_recursive, all_pages_yield.
  destruct (dispatch w start_url use_js).
  - destruct (js_shape (js_world w) start_url selector include_links has_pagination
                max_pages) as (evs & Hl & Ha & Hy).
    exists evs. split; [done |]. split; [done |]. intros [_ Hj]. by apply Hy.
  - destruct (url_shape (url_world w) start_url selector include_links has_pagination
                max_pages) as (evs & Hl & Ha & Hy).
    exists evs. split; [done |]. split; [done |]. intros [Hu _]. by apply Hy.
Qed.

Lemma shape_cap (ps : list PageResult) events (limit : Z) :
  (List.length events <= Z.to_nat limit)%nat ->
  ps = pages_of 0 events ->
  0 <= limit ->
  Z.of_nat (List.length ps) <= limit.
Proof.
  intros Hl -> Hpos. pose proof (pages_of_length 0 events). lia.
Qed.

(** C2: with [has_pagination] set, at most [max_pages] pages are appended;
    without it, at most 1000; in the control-driven mode, in the URL mode and
    for the orchestrator that chooses between them. *)
Theorem page_cap_respected w start_url use_js selector include_links max_pages :
  0 <= max_pages ->
  Z.of_nat (List.length (appended
     (extract_with_js_pagination (js_world w) start_url selector include_links
                                 true max_pages))) <= max_pages
  /\ Z.of_nat (List.length (appended
     (url_pagination (url_world w) start_url selector include_links
                     true max_pages))) <= max_pages
  /\ Z.of_nat (List.length (appended
     (extract_all_pages_recursive w start_url use_js selector include_links
                                  true max_pages))) <= max_pages
  /\ Z.of_nat (List.length (appended
     (extract_with_js_pagination (js_world w) start_url selector include_links
                                 false max_pages))) <= 1000
  /\ Z.of_nat (List.length (appended
     (url_pagination (url_world w) start_url selector include_links
                     false max_pages))) <= 1000
  /\ Z.of_nat (List.length (appended
     (extract_all_pages_recursive w start_url use_js selector include_links
                                  false max_pages))) <= 1000.
Proof.
  intros Hpos.
  destruct (js_shape (js_world w) start_url selector include_links true max_pages)
    as (e1 & L1 & A1 & _).
  destruct (url_shape (url_world w) start_url selector include_links true max_pages)
    as (e2 & L2 & A2 & _).
  destruct (traversal_shape w start_url use_js selector include_links true max_pages)
    as (e3 & L3 & A3 & _).
  destruct (js_shape (js_world w) start_url selector include_links false max_pages)
    as (e4 & L4 & A4 & _).
  destruct (url_shape (url_world w) start_url selector include_links false max_pages)
    as (e5 & L5 & A5 & _).
  destruct (traversal_shape w start_url use_js selector include_links false max_pages)
    as (e6 & L6 & A6 & _).
  repeat split.
  - exact (shape_cap _ _ _ L1 A1 Hpos).
  - exact (shape_cap _ _ _ L2 A2 Hpos).
  - exact (shape_cap _ _ _ L3 A3 Hpos).
  - by apply (shape_cap _ _ _ L4 A4).
  - by apply (shape_cap _ _ _ L5 A5).
  - by apply (shape_cap _ _ _ L6 A6).
Qed.




End TraversalFacts.

(** C1, evaluated on a session whose clicks succeed without changing the
    content: with a cap of four, four pages with the same text are appended
    and the loop stops at the cap, not at the duplicate guard. *)
Theorem unchanged_content_appended_again :
  exists ps,
    extract_with_js_pagination stuck_session "https://a.test/list" None true true 4
      = Returned ps limit_reached
    /\ map pr_text ps = repeat ("Staff Z" +:+ String Py.nl "Next") 4
    /\ page_numbers ps = [1; 2; 3; 4].
Proof. eexists. split; [vm_compute; reflexivity |]. split; vm_compute; reflexivity. Qed.

(** Whatever the pages are: while every activation succeeds, the guard
    cannot fire. *)
Lemma successful_clicks_never_stable `{Libs} jw start_url selector include_links
    has_pagination max_pages ps :
  (forall j, JsMode.next (JsMode.turn jw j) <> JsMode.click_error) ->
  extract_with_js_pagination jw start_url selector include_links has_pagination max_pages
  <> Returned ps content_stable.
Proof.
  intros Hne. unfold extract_with_js_pagination, JsMode.run.
  destruct (JsMode.goto_ok jw); [| done].
  by apply JsFacts.js_loop_never_stable.
Qed.

(** The guard does fire when the activation fails after the click: the
    third identical page is not appended. *)
Example guard_fires_after_click_errors :
  extract_with_js_pagination
    {| JsMode.goto_ok := true;
       JsMode.turn := fun _ => {| JsMode.is_cancelled := false;
                                  JsMode.content := stuck_page;
                                  JsMode.next := JsMode.click_error |} |}
    "https://a.test/list" None true true 4
  = Returned
      [ {| pr_url := "https://a.test/list (page 1)"; page_number := 1;
           pr_text := "Staff Z" +:+ String Py.nl "Next"; pr_links := [] |};
        {| pr_url := "https://a.test/list (page 2)"; page_number := 2;
           pr_text := "Staff Z" +:+ String Py.nl "Next"; pr_links := [] |} ]
      content_stable.
Proof. vm_compute. reflexivity. Qed.


(** The same in the control-driven mode, with a turn that gives no text. *)
Example empty_turn_leaves_gap :
  page_numbers
    (appended (extract_with_js_pagination thin_session "https://a.test/list" None true
                 false 1))
  = [1; 3].
Proof. vm_compute. reflexivity. Qed.

Lemma page_cap_respected_witness :
  0 <= 2
  /\ Z.of_nat (List.length (appended
       (extract_all_pages_recursive flaky_world "https://a.test/list" false None true
          true 2))) <= 2.
Proof.
  split; [lia |].
  exact (proj1 (proj2 (proj2
           (page_cap_respected flaky_world "https://a.test/list" false None true 2
              ltac:(lia))))).
Defined.





(** Cancellation after two pages keeps both. *)
Example cancelled_after_two_pages :
  extract_with_js_pagination
    {| JsMode.goto_ok := true;
       JsMode.turn := fun k =>
         match k with
         | O => {| JsMode.is_cancelled := false;
                   JsMode.content := [Tag "p" [] [NavigableString "Staff A"]];
                   JsMode.next := JsMode.clicked |}
         | S O => {| JsMode.is_cancelled := false;
                     JsMode.content := [Tag "p" [] [NavigableString "Staff B"]];
                     JsMode.next := JsMode.clicked |}
         | _ => {| JsMode.is_cancelled := true; JsMode.content := [];
                   JsMode.next := JsMode.clicked |}
         end |}
    "https://a.test/list" None true false 1
  = Returned
      [ {| pr_url := "https://a.test/list (page 1)"; page_number := 1;
           pr_text := "Staff A"; pr_links := [] |};
        {| pr_url := "https://a.test/list (page 2)"; page_number := 2;
           pr_text := "Staff B"; pr_links := [] |} ]
      cancelled.
Proof. vm_compute. reflexivity. Qed.

(** A listing of three pages that all load: pages 1 to 3, and one "More"
    entry in the session-wide list. *)
Example three_page_listing :
  page_numbers
    (appended (url_pagination listing_site "https://a.test/list" None true false 1))
  = [1; 2; 3]
  /\ unique_links true
       (appended (url_pagination listing_site "https://a.test/list" None true false 1))
     = [ more_link "More";
         {| link_url := "https://a.test/list?page=2"; link_text := "2";
            link_href := "?page=2" |};
         {| link_url := "https://a.test/list?page=3"; link_text := "3";
            link_href := "?page=3" |} ].
Proof. split; vm_compute; reflexivity. Qed.

(** The steady session under a cap of three: pages 1, 2, 3. *)
Example steady_world_three_pages :
  page_numbers
    (appended (extract_all_pages_recursive steady_world "https://a.test/list" true
                 None false true 3))
  = [1; 2; 3].
Proof. vm_compute. reflexivity. Qed.

(** * Further properties *)

(** ** Link lists *)

Section LinkListFacts.
Context `{Libs}.

Lemma link_entry_listed base_url a_tag l :
  l ∈ link_entry base_url a_tag -> listed_entry base_url l.
Proof.
  unfold link_entry.
  set (href := Py.strip (Dom.get_or_empty "href" (Dom.attrs_of a_tag))).
  destruct (Py.truthy href) eqn:Eh;
    destruct (Py.startswith_any href pseudo_listed) eqn:Ep; cbn [negb orb];
    try (by intros ?%elem_of_nil).
  intros ->%list_elem_of_singleton. unfold listed_entry. cbn [link_href link_url link_text].
  split; [done |]. split; [done |]. split; [done |].
  by destruct (Py.truthy (Dom.get_text_strip a_tag)) eqn:Et.
Qed.

Lemma dedup_by_elem {A} (key : A -> string) (xs : list A) x :
  x ∈ dedup_by key xs -> x ∈ xs.
Proof.
  rewrite dedup_by_first_seen. intros Hx. by apply first_seen_fresh in Hx as [_ Hx].
Qed.

Lemma collected_listed base_url s :
  Forall (listed_entry base_url) (dedup_by link_url (collect_links base_url s)).
Proof.
  apply Forall_forall. intros l Hl. apply dedup_by_elem in Hl.
  unfold collect_links in Hl.
  apply list_elem_of_In, in_flat_map in Hl as (a & _ & Hl).
  by apply list_elem_of_In, link_entry_listed in Hl.
Qed.

(** The loop of [extract_links_from_html] is the loop of the extractor's
    second pass: filter the anchors, then keep the first entry per url. *)
Lemma fold_links_step base_url anchors : forall st,
  fold_left (links_step base_url) anchors st
  = fold_left (dedup_step link_url) (flat_map (link_entry base_url) anchors) st.
Proof.
  induction anchors as [|a rest IH]; intros st; [done |].
  cbn [flat_map fold_left]. rewrite fold_left_app, <- IH. f_equal.
  unfold links_step, link_entry.
  set (href := Py.strip (Dom.get_or_empty "href" (Dom.attrs_of a))).
  destruct (Py.truthy href); destruct (Py.startswith_any href pseudo_listed);
    cbn [negb orb fold_left]; done.
Qed.

Lemma extract_links_from_html_dedup html base_url selector :
  extract_links_from_html html base_url selector
  = dedup_by link_url (collect_links base_url (links_soup html selector)).
Proof.
  unfold extract_links_from_html, dedup_by, collect_links. by rewrite fold_links_step.
Qed.


(** X2: whatever the selector, the links of [extract_links_from_html] have
    pairwise distinct urls, and every entry has a non-empty href that is no
    [javascript:], [mailto:], [tel:] or fragment address, the href resolved
    against the base as its url, and a non-empty text. *)
Theorem extract_links_from_html_listed html base_url selector :
  NoDup (map link_url (extract_links_from_html html base_url selector))
  /\ Forall (listed_entry base_url) (extract_links_from_html html base_url selector).
Proof.
  rewrite extract_links_from_html_dedup. split; [apply dedup_by_NoDup |].
  apply collected_listed.
Qed.

(** X3: the same holds for the link list of [extract_text_with_inline_links]
    whenever the call returns. *)
Theorem extracted_links_listed html selector include_links base_url r :
  extract_text_with_inline_links html selector include_links base_url = Some r ->
  Forall (listed_entry (default EmptyString base_url)) (ex_links r).
Proof.
  unfold extract_text_with_inline_links.
  destruct (include_links && opt_truthy base_url).
  - destruct (reselect html selector) as [t|]; [| done].
    intros [= <-]. simpl. apply collected_listed.
  - intros [= <-]. constructor.
Qed.

End LinkListFacts.


Lemma extracted_links_listed_witness :
  Forall (listed_entry "https://a.test/list")
    [ {| link_url := "https://a.test/more"; link_text := "More"; link_href := "/more" |} ].
Proof.
  exact (extracted_links_listed two_anchor_page None true (Some "https://a.test/list") _
           two_anchor_page_extracted).
Defined.

(** ** File names *)

Section FileNameFacts.
Context `{Libs}.

Lemma has_char_append c s t :
  Text.has_char c (s +:+ t) = Text.has_char c s || Text.has_char c t.
Proof. induction s as [|a s IH]; simpl; [done |]. by rewrite IH, orb_assoc. Qed.

Lemma has_char_remove_chars c cs s :
  existsb (Ascii.eqb c) cs = true -> Text.has_char c (Text.remove_chars cs s) = false.
Proof.
  intros Hc. induction s as [|a s IH]; simpl; [done |].
  destruct (existsb (Ascii.eqb a) cs) eqn:Ea; [done |]. simpl. rewrite IH.
  destruct (Ascii.eqb_spec a c) as [-> | _]; [congruence | done].
Qed.

Lemma has_char_substring c m : forall s,
  Text.has_char c s = false -> Text.has_char c (String.substring 0 m s) = false.
Proof.
  induction m as [|m IH]; intros [|a s]; simpl; try done.
  intros [Ha Hs]%orb_false_elim. by rewrite Ha, IH.
Qed.

Lemma length_substring m : forall s, (String.length (String.substring 0 m s) <= m)%nat.
Proof.
  induction m as [|m IH]; intros [|a s]; simpl; try lia. specialize (IH s). lia.
Qed.

Lemma has_char_take_prefix c n s :
  Text.has_char c s = false -> Text.has_char c (Py.take_prefix n s) = false.
Proof.
  intros Hs. unfold Py.take_prefix. destruct (n <? String.length s)%nat; [| done].
  by apply has_char_substring.
Qed.

Lemma length_take_prefix n s : (String.length (Py.take_prefix n s) <= n)%nat.
Proof.
  unfold Py.take_prefix. destruct (Nat.ltb_spec n (String.length s));
    [apply length_substring | lia].
Qed.

Lemma filename_stem_clean url max_length : clean_name (filename_stem url max_length).
Proof.
  unfold clean_name, filename_stem.
  apply Forall_forall. intros c Hc. apply has_char_take_prefix, has_char_remove_chars.
  apply existsb_exists. exists c. split; [by apply list_elem_of_In | apply Ascii.eqb_refl].
Qed.

(** X4: the name [sanitize_filename] builds is its stem, an underscore and
    the time stamp; the stem is at most [max_length] characters long and
    holds none of the characters of line 49, and neither does the whole name
    when the time stamp holds none. *)
Theorem sanitize_filename_safe timestamp url max_length :
  clean_name timestamp ->
  sanitize_filename timestamp url max_length
    = filename_stem url max_length +:+ "_" +:+ timestamp
  /\ (String.length (filename_stem url max_length) <= max_length)%nat
  /\ clean_name (filename_stem url max_length)
  /\ clean_name (sanitize_filename timestamp url max_length).
Proof.
  intros Hts. split; [done |]. split; [apply length_take_prefix |].
  split; [apply filename_stem_clean |].
  pose proof (filename_stem_clean url max_length) as Hstem.
  unfold clean_name in *. rewrite Forall_forall in *. intros c Hc.
  unfold sanitize_filename. rewrite !has_char_append, (Hstem c Hc), (Hts c Hc).
  simpl. rewrite orb_false_r.
  repeat (apply elem_of_cons in Hc as [-> | Hc]; [done |]). by apply elem_of_nil in Hc.
Qed.

End FileNameFacts.

Lemma sanitize_filename_safe_witness :
  sanitize_filename "20240131_093000" "https://www.example.edu:8080/faculty/list?dept=cs"
                    200
  = "www_example_edu_8080_faculty_list_20240131_093000"
  /\ clean_name "www_example_edu_8080_faculty_list_20240131_093000".
Proof.
  assert (Hts : clean_name "20240131_093000") by (repeat constructor).
  destruct (sanitize_filename_safe "20240131_093000"
              "https://www.example.edu:8080/faculty/list?dept=cs" 200 Hts)
    as (_ & _ & _ & Hclean).
  split; [vm_compute; reflexivity | exact Hclean].
Defined.

(** A long path is cut at [max_length]. *)
Example sanitize_filename_truncates :
  sanitize_filename "20240131_093000" "https://a.test/faculty/list" 12
  = "a_test_facul_20240131_093000".
Proof. vm_compute. reflexivity. Qed.

(** ** Pagination-shaped addresses *)

Lemma search_mono (here1 here2 : string -> bool) s :
  (forall t, here1 t = true -> here2 t = true) ->
  Re.search here1 s = true -> Re.search here2 s = true.
Proof.
  intros Himp. induction s as [|a s IH]; simpl.
  - rewrite !orb_false_r. apply Himp.
  - intros [H1 | H1]%orb_true_iff; apply orb_true_iff; [left; by apply Himp | right; auto].
Qed.

Lemma eq_digit_loose o :
  Re.eq_digit o = true -> ReLoose.digit_or_eq_digit o = true.
Proof.
  destruct o as [[|c r]|]; simpl; try done. intros ->. apply orb_true_r.
Qed.

Lemma page_param_loose s : Re.page_param s = true -> ReLoose.page_param s = true.
Proof.
  apply search_mono. intros [|c r]; simpl; [done |].
  intros [Hc Hr]%andb_true_iff. rewrite Hc. simpl.
  apply orb_true_iff in Hr as [Hr | Hr]; apply eq_digit_loose in Hr; rewrite Hr;
    [done | apply orb_true_r].
Qed.

(** X5: [detect_pagination_from_urls] keeps the order of its input and
    drops no address that the URL test of [find_pagination_links] accepts (a
    page parameter or a page segment in the path). *)
Theorem detect_pagination_keeps_shaped urls :
  detect_pagination_from_urls urls `sublist_of` urls
  /\ (forall u, u ∈ urls -> Re.page_param u || Re.page_path u = true ->
        u ∈ detect_pagination_from_urls urls).
Proof.
  unfold detect_pagination_from_urls. split; [apply sublist_filter |].
  intros u Hu Hs. apply list_elem_of_filter. split; [| done].
  apply orb_true_iff in Hs as [Hs | Hs]; apply orb_true_iff;
    [left; by apply page_param_loose | by right].
Qed.

Lemma detect_pagination_keeps_shaped_witness :
  "https://a.test/list?page=2"
  ∈ detect_pagination_from_urls
      ["https://a.test/about"; "https://a.test/list?page=2"; "https://a.test/List?P7"].
Proof.
  apply (proj2 (detect_pagination_keeps_shaped _)).
  - right. by left.
  - vm_compute. reflexivity.
Defined.

(** The looser pattern also takes a parameter without the equals sign. *)
Example detect_pagination_example :
  detect_pagination_from_urls
    ["https://a.test/about"; "https://a.test/list?page=2"; "https://a.test/List?P7";
     "https://a.test/news/Page-3"; "https://a.test/pages"]
  = ["https://a.test/list?page=2"; "https://a.test/List?P7"; "https://a.test/news/Page-3"].
Proof. vm_compute. reflexivity. Qed.

(** ** The document tree *)

Lemma node_induction (P : node -> Prop) :
  (forall s, P (NavigableString s)) ->
  (forall nm a cs, Forall P cs -> P (Tag nm a cs)) ->
  forall n, P n.
Proof.
  intros Hs Ht. fix IH 1. intros [s | nm a cs]; [apply Hs |].
  apply Ht. induction cs as [|c cs IHcs]; constructor; [apply IH | apply IHcs].
Qed.

(** A descendant of a descendant is a descendant. *)
Lemma descendants_trans n : forall c b,
  c ∈ Dom.descendants n -> b ∈ Dom.descendants c -> b ∈ Dom.descendants n.
Proof.
  induction n as [s | nm a cs IH] using node_induction; intros c b Hc Hb; simpl in *.
  - by apply elem_of_nil in Hc.
  - apply list_elem_of_In, in_flat_map in Hc as (ch & Hch & Hc).
    apply list_elem_of_In, in_flat_map. exists ch. split; [done |].
    apply list_elem_of_In. apply list_elem_of_In, elem_of_cons in Hc as [-> | Hc].
    + by right.
    + right. rewrite Forall_forall in IH.
      apply (IH ch (proj2 (list_elem_of_In _ _) Hch) c b Hc Hb).
Qed.

Lemma soup_descendants_trans s c b :
  c ∈ Dom.soup_descendants s -> b ∈ Dom.descendants c -> b ∈ Dom.soup_descendants s.
Proof.
  unfold Dom.soup_descendants. intros Hc Hb.
  apply list_elem_of_In, in_flat_map in Hc as (ch & Hch & Hc).
  apply list_elem_of_In, in_flat_map. exists ch. split; [done |].
  apply list_elem_of_In. apply list_elem_of_In, elem_of_cons in Hc as [-> | Hc].
  - by right.
  - right. by apply (descendants_trans ch c b).
Qed.

Lemma find_all_elem p s b : b ∈ Dom.find_all p s -> b ∈ Dom.soup_descendants s /\ p b = true.
Proof. unfold Dom.find_all. intros Hb. by apply list_elem_of_filter in Hb as [? ?]. Qed.

Lemma find_all_in_elem p n b : b ∈ Dom.find_all_in p n -> b ∈ Dom.descendants n /\ p b = true.
Proof. unfold Dom.find_all_in. intros Hb. by apply list_elem_of_filter in Hb as [? ?]. Qed.

(** ** The next-page control *)

Section NextControlFacts.
Context `{Libs}.

Lemma first_enabled_elem btns b :
  first_enabled btns = Some b -> b ∈ btns /\ looks_disabled b = false.
Proof.
  unfold first_enabled. intros Hb. apply head_Some_elem_of in Hb.
  by apply list_elem_of_filter in Hb as [? ?].
Qed.

Lemma looks_disabled_class b :
  looks_disabled b = false -> Py.contains (class_lower b) "disabled" = false.
Proof. unfold looks_disabled. by intros [_ ?]%orb_false_elim. Qed.

Lemma anchor_is_control b : Dom.name_in ["a"] b = true -> Dom.name_in a_or_button b = true.
Proof.
  unfold Dom.name_in. destruct (Dom.name_of b) as [nm|]; [| done]. simpl.
  rewrite !orb_false_r. by intros ->.
Qed.

Lemma next_by_data_action_usable s b :
  next_by_data_action s = Some b -> usable_control s b.
Proof.
  unfold next_by_data_action. intros [Hb Hd]%first_enabled_elem.
  apply find_all_elem in Hb as [Hin [Hn _]%andb_true_iff].
  split; [done |]. split; [done | by apply looks_disabled_class].
Qed.

Lemma next_by_container_usable s b :
  next_by_container s = Some b -> usable_control s b.
Proof.
  unfold next_by_container. intros [Hb Hd]%first_enabled_elem.
  apply list_elem_of_In, in_flat_map in Hb as (container & Hc & Hb).
  apply list_elem_of_In, find_all_elem in Hc as [Hc _].
  unfold Dom.find_in in Hb. destruct (head _) as [link|] eqn:Eh; [| by destruct Hb].
  destruct Hb as [<- | []].
  apply head_Some_elem_of, find_all_in_elem in Eh as [Hin [Hn _]%andb_true_iff].
  split; [by apply (soup_descendants_trans s container) |].
  split; [by apply anchor_is_control | by apply looks_disabled_class].
Qed.

Lemma next_by_facetwp_usable s b :
  next_by_facetwp s = Some b -> usable_control s b.
Proof.
  unfold next_by_facetwp, Dom.find.
  destruct (head _) as [btn|] eqn:Eh; [| done].
  destruct (negb (Py.contains (class_lower btn) "disabled")) eqn:Ed; [| done].
  destruct (Dom.attr_truthy "data-page" btn); [| done]. intros [= <-].
  apply head_Some_elem_of, find_all_elem in Eh as [Hin [Hn _]%andb_true_iff].
  split; [done |]. split; [by apply anchor_is_control | by apply negb_true_iff].
Qed.

Lemma next_by_data_page_usable s b :
  next_by_data_page s = Some b -> usable_control s b.
Proof.
  unfold next_by_data_page. intros Hb.
  apply head_Some_elem_of, list_elem_of_filter in Hb as [Hp Hb].
  apply find_all_elem in Hb as [Hin [Hn _]%andb_true_iff].
  apply andb_true_iff in Hp as [_ Hd].
  split; [done |]. split; [done | by apply negb_true_iff].
Qed.

Lemma next_by_pattern_usable s b :
  next_by_pattern s = Some b -> usable_control s b.
Proof.
  unfold next_by_pattern. intros [Hb Hd]%first_enabled_elem.
  apply list_elem_of_In, in_flat_map in Hb as (pattern & _ & Hb).
  apply list_elem_of_In, find_all_elem in Hb as [Hin [Hn _]%andb_true_iff].
  split; [done |]. split; [done | by apply looks_disabled_class].
Qed.

(** X6: whatever [find_next_page_button] returns is an [a] or [button]
    element of the document whose class does not contain "disabled". *)
Theorem next_control_usable s b :
  find_next_page_button s = Some b -> usable_control s b.
Proof.
  unfold find_next_page_button, or_else.
  destruct (next_by_data_action s) eqn:E1;
    [intros [= <-]; by apply next_by_data_action_usable |].
  destruct (next_by_container s) eqn:E2;
    [intros [= <-]; by apply next_by_container_usable |].
  destruct (next_by_facetwp s) eqn:E3;
    [intros [= <-]; by apply next_by_facetwp_usable |].
  destruct (next_by_data_page s) eqn:E4;
    [intros [= <-]; by apply next_by_data_page_usable |].
  apply next_by_pattern_usable.
Qed.

End NextControlFacts.

Lemma next_control_usable_witness : usable_control plain_pager_page next_anchor.
Proof.
  apply (next_control_usable plain_pager_page next_anchor). vm_compute. reflexivity.
Defined.

(** ** Invariants of the URL loop *)

Section UrlInvariants.
Context `{Libs}.
Variable w : UrlMode.World.
Variables (selector : option string) (include_links has_pagination : bool).
Variable max_iterations : Z.

Abbreviation url_loop :=
  (UrlMode.loop w selector include_links has_pagination max_iterations).

(** A property of the result list, the visited set and the queue that every
    turn of the loop keeps holds of what the loop leaves. *)
Lemma url_loop_invariant (J : list PageResult -> gset string -> list string -> Prop) :
  (forall ps v url q, J ps v (url :: q) -> url ∈ v -> J ps v q) ->
  (forall ps v url q, J ps v (url :: q) -> url ∉ v -> J ps ({[ url ]} ∪ v) q) ->
  (forall ps v url q c html e,
     J ps v (url :: q) -> url ∉ v ->
     UrlMode.load_page w url = Some html ->
     extract_text_with_inline_links html selector include_links (Some url) = Some e ->
     Py.truthy (ex_text e) = true ->
     J (ps ++ [ {| pr_url := url; page_number := c;
                   pr_text := ex_text e; pr_links := ex_links e |} ])%list
       ({[ url ]} ∪ v)
       (fold_left (UrlMode.enqueue ({[ url ]} ∪ v))
                  (UrlMode.valid_pagination_links url (find_pagination_links html url))
                  q)) ->
  forall remaining k st,
    J (UrlMode.all_text_parts st) (UrlMode.visited_urls st) (UrlMode.urls_to_visit st) ->
    exists v q, J (appended (url_loop remaining k st)) v q.
Proof.
  intros Hskip Hfail Hpage.
  induction remaining as [|n IH]; intros k st HJ; simpl.
  { destruct (UrlMode.urls_to_visit st); eauto. }
  destruct (UrlMode.urls_to_visit st) as [|url rest] eqn:Eq; [eauto |].
  destruct (UrlMode.is_cancelled w k); [eauto |].
  destruct (bool_decide (url ∈ UrlMode.visited_urls st)) eqn:Ev.
  { apply bool_decide_eq_true in Ev. apply IH. simpl. by apply (Hskip _ _ url). }
  apply bool_decide_eq_false in Ev.
  destruct (has_pagination && (max_iterations <? UrlMode.page_count st + 1)); [eauto |].
  destruct (UrlMode.load_page w url) as [html|] eqn:El.
  - destruct (extract_text_with_inline_links html selector include_links (Some url))
      as [e|] eqn:Ee; [| eauto].
    destruct (Py.truthy (ex_text e)) eqn:Et.
    + apply IH. simpl. by apply Hpage.
    + apply IH. simpl. by apply Hfail.
  - apply IH. simpl. by apply Hfail.
Qed.

Lemma enqueue_Forall (P : string -> Prop) visited links : forall queue,
  Forall P queue -> Forall P links ->
  Forall P (fold_left (UrlMode.enqueue visited) links queue).
Proof.
  induction links as [|l links IH]; intros queue Hq Hl; [done |].
  apply Forall_cons in Hl as [Hl Hls]. simpl. apply IH; [| done].
  unfold UrlMode.enqueue. destruct (_ && _); [| done].
  apply Forall_app. split; [done | by constructor].
Qed.

Lemma find_pagination_links_netloc html base_url u :
  u ∈ find_pagination_links html base_url ->
  netloc (urlparse u) = netloc (urlparse base_url).
Proof.
  unfold find_pagination_links, pagination_link_set. intros Hu.
  apply elem_of_elements, elem_of_list_to_set, elem_of_app in Hu as [Hu | Hu].
  - by apply strategy1_netloc in Hu.
  - by apply strategy2_netloc in Hu.
Qed.

(** X7: the URL traversal never appends the same address twice. *)
Theorem url_pages_distinct start_url :
  NoDup (map pr_url
           (appended (UrlMode.run w selector include_links has_pagination
                        max_iterations start_url))).
Proof.
  unfold UrlMode.run.
  destruct (url_loop_invariant
              (fun ps v _ => NoDup (map pr_url ps) /\ Forall (fun p => pr_url p ∈ v) ps))
    with (remaining := Z.to_nat max_iterations) (k := 0%nat)
         (st := UrlMode.initial start_url) as (v & q & Hn & _).
  - done.
  - intros ps v url q [Hn Hv] Hnew. split; [done |].
    eapply Forall_impl; [exact Hv |]. intros p Hp. set_solver.
  - intros ps v url q c html e [Hn Hv] Hnew _ _ _. split.
    + rewrite map_app. apply NoDup_app. split; [done |]. split; [| apply NoDup_singleton].
      intros u Hu ->%list_elem_of_singleton.
      apply list_elem_of_In, in_map_iff in Hu as (p & Hp & Hin).
      rewrite Forall_forall in Hv. apply list_elem_of_In, Hv in Hin. simpl in Hp. congruence.
    + apply Forall_app. split.
      * eapply Forall_impl; [exact Hv |]. intros p Hp. set_solver.
      * constructor; [simpl; set_solver | constructor].
  - simpl. split; constructor.
  - done.
Qed.

(** X8: the URL traversal stays on the host of the start address: every
    appended page has the start address's [netloc]. *)
Theorem url_pages_same_host start_url :
  Forall (fun p => netloc (urlparse (pr_url p)) = netloc (urlparse start_url))
         (appended (UrlMode.run w selector include_links has_pagination
                      max_iterations start_url)).
Proof.
  unfold UrlMode.run.
  set (on_host := fun u => netloc (urlparse u) = netloc (urlparse start_url)).
  destruct (url_loop_invariant
              (fun ps _ q => Forall (fun p => on_host (pr_url p)) ps /\ Forall on_host q))
    with (remaining := Z.to_nat max_iterations) (k := 0%nat)
         (st := UrlMode.initial start_url) as (v & q & Hp & _).
  - intros ps v url q [Hp Hq] _. split; [done | by apply Forall_cons in Hq as [_ ?]].
  - intros ps v url q [Hp Hq] _. split; [done | by apply Forall_cons in Hq as [_ ?]].
  - intros ps v url q c html e [Hp Hq] _ _ _ _.
    apply Forall_cons in Hq as [Hurl Hq]. split.
    + apply Forall_app. split; [done | by repeat constructor].
    + apply enqueue_Forall; [done |]. apply Forall_forall. intros u Hu.
      unfold UrlMode.valid_pagination_links in Hu.
      apply list_elem_of_filter in Hu as [_ Hu].
      apply find_pagination_links_netloc in Hu. unfold on_host. congruence.
  - simpl. split; [constructor | by repeat constructor].
  - done.
Qed.

(** X9: the URL traversal returns nothing, or a list that starts with the
    start address as page 1: other addresses are only discovered on pages
    that were appended. *)
Theorem url_first_page_is_start start_url :
  appended (UrlMode.run w selector include_links has_pagination max_iterations start_url)
    = []
  \/ exists p rest,
       appended (UrlMode.run w selector include_links has_pagination max_iterations
                   start_url) = p :: rest
       /\ pr_url p = start_url /\ page_number p = 1.
Proof.
  unfold UrlMode.run.
  destruct (Z.to_nat max_iterations) as [|n]; [by left |].
  simpl. destruct (UrlMode.is_cancelled w 0); [by left |].
  rewrite bool_decide_eq_false_2 by set_solver.
  destruct (has_pagination && (max_iterations <? 0 + 1)); [by left |].
  destruct (UrlMode.load_page w start_url) as [html|].
  - destruct (extract_text_with_inline_links html selector include_links
                (Some start_url)) as [e|]; [| by left].
    destruct (Py.truthy (ex_text e)).
    + right.
      match goal with |- context [url_loop n 1 ?s] =>
        destruct (UrlFacts.url_loop_shape w selector include_links has_pagination
                    max_iterations n 1%nat s) as (evs & _ & Happ & _) end.
      rewrite Happ. simpl. eexists _, _. split; [reflexivity | done].
    + left. by destruct n.
  - left. by destruct n.
Qed.

End UrlInvariants.

(** ** Invariants of both traversals *)

Section TraversalInvariants.
Context `{Libs}.

Lemma js_extract_step_text start_url selector include_links has_pagination
    max_pages_limit t st st1 :
  JsMode.extract_step start_url selector include_links has_pagination max_pages_limit
                      t st = inl st1 ->
  Forall has_text (JsMode.all_text_parts st) ->
  Forall has_text (JsMode.all_text_parts st1).
Proof.
  unfold JsMode.extract_step. destruct (_ && _); [done |].
  destruct (extract_text_with_inline_links _ _ _ _) as [e|]; [| done].
  destruct (Py.truthy (ex_text e)) eqn:Et.
  - destruct (JsMode.duplicate_guard _ _) as [[previous same]|]; [| done].
    intros [= <-] Hall. simpl. apply Forall_app. split; [done |]. by repeat constructor.
  - by intros [= <-].
Qed.

Lemma js_loop_text jw start_url selector include_links has_pagination max_pages_limit
    remaining : forall k st,
  Forall has_text (JsMode.all_text_parts st) ->
  Forall has_text
    (appended (JsMode.loop jw start_url selector include_links has_pagination
                 max_pages_limit remaining k st)).
Proof.
  induction remaining as [|n IH]; intros k st Hall; simpl; [done |].
  destruct (JsMode.is_cancelled (JsMode.turn jw k)); [done |].
  destruct (JsMode.extract_step _ _ _ _ _ _ st) as [st1 | o] eqn:Es.
  - pose proof (js_extract_step_text _ _ _ _ _ _ _ _ Es Hall) as Hall1.
    destruct (JsMode.activate _ st1) as [st2 | why] eqn:Ea; [| done].
    apply JsFacts.activate_inl in Ea as [Hp _]. apply IH. by rewrite Hp.
  - apply JsFacts.extract_step_inr in Es as [-> _]. done.
Qed.

Lemma url_run_text uw selector include_links has_pagination max_iterations start_url :
  Forall has_text
    (appended (UrlMode.run uw selector include_links has_pagination max_iterations
                 start_url)).
Proof.
  unfold UrlMode.run.
  destruct (url_loop_invariant uw selector include_links has_pagination max_iterations
              (fun ps _ _ => Forall has_text ps))
    with (remaining := Z.to_nat max_iterations) (k := 0%nat)
         (st := UrlMode.initial start_url) as (v & q & Hp); try done.
  intros ps v url q c html e Hp _ _ _ Ht. apply Forall_app. split; [done |].
  by repeat constructor.
Qed.

(** X10: no page of a traversal result has an empty text, in either mode. *)
Theorem pages_have_text w start_url use_js selector include_links has_pagination
    max_pages :
  Forall has_text
    (appended (extract_all_pages_recursive w start_url use_js selector include_links
                 has_pagination max_pages)).
Proof.
  unfold extract_all_pages_recursive, extract_with_js_pagination, url_pagination.
  destruct (dispatch w start_url use_js).
  - unfold JsMode.run. destruct (JsMode.goto_ok (js_world w)); [| constructor].
    apply js_loop_text. constructor.
  - apply url_run_text.
Qed.

(** X11: no page number exceeds the page limit in force ([max_pages], or
    1000 without [has_pagination]). *)
Theorem page_numbers_within_limit w start_url use_js selector include_links
    has_pagination max_pages :
  Forall (fun p => 1 <= page_number p <= page_limit has_pagination max_pages)
    (appended (extract_all_pages_recursive w start_url use_js selector include_links
                 has_pagination max_pages)).
Proof.
  destruct (traversal_shape w start_url use_js selector include_links has_pagination
              max_pages) as (evs & Hlen & -> & _).
  eapply Forall_impl; [apply (pages_of_bounds 0 evs) |]. simpl. intros p Hp. lia.
Qed.

(** After an activation error the failure counter is [c]; with only errors
    from there on, at most [3 - c] more pages are appended. *)
Lemma js_loop_strikes jw start_url selector include_links has_pagination
    max_pages_limit remaining : forall k st,
  (forall j, JsMode.next (JsMode.turn jw j) = JsMode.click_error) ->
  0 <= JsMode.consecutive_no_next st < 3 ->
  Z.of_nat (List.length
    (appended (JsMode.loop jw start_url selector include_links has_pagination
                 max_pages_limit remaining k st)))
  <= Z.of_nat (List.length (JsMode.all_text_parts st))
     + (3 - JsMode.consecutive_no_next st).
Proof.
  induction remaining as [|n IH]; intros k st Herr Hc; simpl; [lia |].
  destruct (JsMode.is_cancelled (JsMode.turn jw k)); [simpl; lia |].
  destruct (JsMode.extract_step _ _ _ _ _ _ st) as [st1 | o] eqn:Es.
  - apply JsFacts.extract_step_inl in Es as (_ & Hn & ev & Hp & _).
    assert (Hlen : Z.of_nat (List.length (JsMode.all_text_parts st1))
                   <= Z.of_nat (List.length (JsMode.all_text_parts st)) + 1).
    { rewrite Hp, length_app. pose proof (pages_of_length (JsMode.page_count st) [ev]).
      simpl in *. lia. }
    rewrite Herr. simpl. rewrite Hn.
    destruct (Z.leb_spec 3 (JsMode.consecutive_no_next st + 1)); simpl; [lia |].
    etransitivity; [apply IH; [done | simpl; lia] |]. simpl. lia.
  - apply JsFacts.extract_step_inr in Es as [-> _]. lia.
Qed.

(** X12: three strikes. When every activation ends in an error, the
    control-driven traversal appends at most three pages, whatever the page
    limit. *)
Theorem three_activation_errors_stop jw start_url selector include_links has_pagination
    max_pages :
  (forall j, JsMode.next (JsMode.turn jw j) = JsMode.click_error) ->
  (List.length
     (appended (extract_with_js_pagination jw start_url selector include_links
                  has_pagination max_pages)) <= 3)%nat.
Proof.
  intros Herr. unfold extract_with_js_pagination, JsMode.run.
  destruct (JsMode.goto_ok jw); [| simpl; lia].
  pose proof (js_loop_strikes jw start_url selector include_links has_pagination
                (page_limit has_pagination max_pages)
                (Z.to_nat (page_limit has_pagination max_pages)) 0%nat JsMode.initial
                Herr ltac:(simpl; lia)) as Hs.
  simpl in Hs. lia.
Qed.

(** X13: the stored document drops no page: its content is the texts of all
    pages of the result, in order, joined by one blank line, and its page
    count is the number of texts joined. *)
Theorem stored_content_has_every_page w start_url use_js selector include_links
    has_pagination max_pages doc :
  extraction_doc include_links
    (extract_all_pages_recursive w start_url use_js selector include_links
       has_pagination max_pages) = Some doc ->
  exists result why,
    extract_all_pages_recursive w start_url use_js selector include_links
      has_pagination max_pages = Returned result why
    /\ result <> []
    /\ doc_content doc = Py.join blank_line (map pr_text result)
    /\ doc_pages_extracted doc = List.length (map pr_text result)
    /\ doc_links doc = unique_links include_links result.
Proof.
  pose proof (pages_have_text w start_url use_js selector include_links has_pagination
                max_pages) as Htext.
  destruct (extract_all_pages_recursive _ _ _ _ _ _ _) as [result why | ps]; [| done].
  simpl in Htext. unfold extraction_doc.
  destruct result as [|p rest] eqn:Er; [done |]. rewrite <- Er in *.
  intros [= <-]. exists result, why. simpl.
  assert (combined_text_parts result = map pr_text result) as ->.
  { unfold combined_text_parts. clear Er. induction Htext as [|q qs Hq _ IH]; [done |].
    simpl. rewrite filter_cons_True by exact Hq. by rewrite IH. }
  rewrite length_map. split; [done |]. split; [by rewrite Er |]. done.
Qed.

End TraversalInvariants.

(** ** Strings: strip, split and join *)

Lemma lstrip_has_char c s :
  Text.has_char c s = false -> Text.has_char c (Py.lstrip s) = false.
Proof.
  induction s as [|a s IH]; simpl; [done |].
  intros Hs. destruct (Py.is_space a); [| done].
  apply orb_false_elim in Hs as [_ Hs]. by apply IH.
Qed.

Lemma rstrip_has_char c s :
  Text.has_char c s = false -> Text.has_char c (Py.rstrip s) = false.
Proof.
  induction s as [|a s IH]; simpl; [done |].
  intros [Ha Hs]%orb_false_elim. specialize (IH Hs).
  destruct (Py.rstrip s) as [|b r].
  - destruct (Py.is_space a); simpl; [done | by rewrite Ha].
  - simpl in *. by rewrite Ha, IH.
Qed.

Lemma strip_has_char c s :
  Text.has_char c s = false -> Text.has_char c (Py.strip s) = false.
Proof. intros Hs. by apply rstrip_has_char, lstrip_has_char. Qed.

Lemma lstrip_head s :
  Py.lstrip s = EmptyString
  \/ exists a t, Py.lstrip s = String a t /\ Py.is_space a = false.
Proof.
  induction s as [|a s IH]; simpl; [by left |].
  destruct (Py.is_space a) eqn:Ea; [done |]. right. by exists a, s.
Qed.

Lemma rstrip_idem s : Py.rstrip (Py.rstrip s) = Py.rstrip s.
Proof.
  induction s as [|a s IH]; simpl; [done |].
  destruct (Py.rstrip s) as [|b r] eqn:Er.
  - destruct (Py.is_space a) eqn:Ea; simpl; [done | by rewrite Ea].
  - simpl. simpl in IH. by rewrite IH.
Qed.

Lemma rstrip_keeps_head a t :
  Py.is_space a = false -> exists r, Py.rstrip (String a t) = String a r.
Proof.
  intros Ha. simpl. destruct (Py.rstrip t) as [|b r]; [rewrite Ha |]; by eexists.
Qed.

(** [strip] is idempotent. *)
Lemma strip_idem s : Py.strip (Py.strip s) = Py.strip s.
Proof.
  unfold Py.strip. destruct (lstrip_head s) as [-> | (a & t & -> & Ha)]; [done |].
  destruct (rstrip_keeps_head a t Ha) as [r Hr].
  assert (Py.lstrip (Py.rstrip (String a t)) = Py.rstrip (String a t)) as ->.
  { rewrite Hr. simpl. by rewrite Ha. }
  apply rstrip_idem.
Qed.

Lemma split_pieces c s : Forall (fun l => Text.has_char c l = false) (Py.split c s).
Proof.
  induction s as [|a s IH]; simpl; [by repeat constructor |].
  destruct (Ascii.eqb a c) eqn:Ea; [by constructor |].
  destruct (Py.split c s) as [|w ws]; [repeat constructor; simpl; by rewrite Ea |].
  apply Forall_cons in IH as [Hw Hws]. constructor; [| done]. simpl. by rewrite Ea, Hw.
Qed.

Lemma split_whole c l : Text.has_char c l = false -> Py.split c l = [l].
Proof.
  induction l as [|a l IH]; simpl; [done |].
  intros [Ha Hl]%orb_false_elim. rewrite Ha, IH; done.
Qed.

Lemma split_append c l rest :
  Text.has_char c l = false ->
  Py.split c (l +:+ String c rest) = l :: Py.split c rest.
Proof.
  induction l as [|a l IH]; simpl.
  - intros _. by rewrite Ascii.eqb_refl.
  - intros [Ha Hl]%orb_false_elim. rewrite Ha, IH; done.
Qed.

(** Splitting a join gives the pieces back when no piece holds the separator. *)
Lemma split_join c ls :
  ls <> [] ->
  Forall (fun l => Text.has_char c l = false) ls ->
  Py.split c (Py.join (String c EmptyString) ls) = ls.
Proof.
  unfold Py.join. induction ls as [|x xs IH]; [done |]. intros _ Hall.
  apply Forall_cons in Hall as [Hx Hxs]. destruct xs as [|y ys].
  - simpl. by apply split_whole.
  - change (String.concat (String c EmptyString) (x :: y :: ys))
      with (x +:+ String c (String.concat (String c EmptyString) (y :: ys))).
    rewrite split_append by done. f_equal. by apply IH.
Qed.

(** ** The shape of the extracted text *)

Section TextShape.
Context `{Libs}.

Lemma clean_lines_shape text :
  Forall (fun l => Py.truthy l = true /\ Py.strip l = l
                   /\ Text.has_char Py.nl l = false) (clean_lines text).
Proof.
  unfold clean_lines. apply Forall_forall. intros l Hl.
  apply list_elem_of_filter in Hl as [Ht Hl].
  apply list_elem_of_In, in_map_iff in Hl as (x & <- & Hx).
  split; [done |]. split; [apply strip_idem |].
  apply strip_has_char. pose proof (split_pieces Py.nl text) as Hp.
  rewrite Forall_forall in Hp. by apply Hp, list_elem_of_In.
Qed.

Lemma clean_lines_fixed ls :
  Forall (fun l => Py.truthy l = true /\ Py.strip l = l
                   /\ Text.has_char Py.nl l = false) ls ->
  clean_lines (Py.join (String Py.nl EmptyString) ls) = ls.
Proof.
  intros Hall. destruct ls as [|x xs]; [done |].
  unfold clean_lines. rewrite split_join; [| done |].
  - induction Hall as [|l ls (Ht & Hs & _) _ IH]; [done |].
    simpl. rewrite Hs, filter_cons_True by done. by rewrite IH.
  - eapply Forall_impl; [exact Hall |]. by intros l (_ & _ & ?).
Qed.

Lemma text_content_lines s :
  clean_lines (text_content s)
  = clean_lines (Dom.soup_get_text (String Py.nl EmptyString) s).
Proof. unfold text_content. apply clean_lines_fixed, clean_lines_shape. Qed.

Lemma extracted_text_is_content html selector include_links base_url r :
  extract_text_with_inline_links html selector include_links base_url = Some r ->
  exists s, ex_text r = text_content s.
Proof.
  unfold extract_text_with_inline_links.
  destruct (include_links && opt_truthy base_url).
  - destruct (reselect html selector); [| done]. intros [= <-]. by eexists.
  - intros [= <-]. by eexists.
Qed.

(** X14: the extracted text is made of clean lines: every line is non-empty,
    has no leading or trailing whitespace, and cleaning the text again (as in
    lines 162-168) gives the same text back. *)
Theorem extracted_text_clean html selector include_links base_url r :
  extract_text_with_inline_links html selector include_links base_url = Some r ->
  Forall (fun l => Py.truthy l = true /\ Py.strip l = l) (clean_lines (ex_text r))
  /\ Py.join (String Py.nl EmptyString) (clean_lines (ex_text r)) = ex_text r
  /\ (ex_text r = EmptyString \/ Py.split Py.nl (ex_text r) = clean_lines (ex_text r)).
Proof.
  intros Hr. destruct (extracted_text_is_content _ _ _ _ _ Hr) as [s ->].
  split.
  { eapply Forall_impl; [apply clean_lines_shape |]. by intros l (? & ? & _). }
  rewrite text_content_lines. split; [done |].
  unfold text_content.
  pose proof (clean_lines_shape (Dom.soup_get_text (String Py.nl EmptyString) s)) as Hshape.
  destruct (clean_lines _) as [|x xs] eqn:El; [by left |]. right.
  apply split_join; [done |]. eapply Forall_impl; [exact Hshape |]. by intros l (_ & _ & ?).
Qed.

End TextShape.

Lemma extracted_text_clean_witness :
  Py.split Py.nl ("More — https://a.test/more" +:+ String Py.nl
                  "Read more — https://a.test/more")
  = clean_lines ("More — https://a.test/more" +:+ String Py.nl
                 "Read more — https://a.test/more").
Proof.
  destruct (extracted_text_clean two_anchor_page None true (Some "https://a.test/list") _
              two_anchor_page_extracted) as (_ & _ & [Hempty | Hsplit]).
  - vm_compute in Hempty. discriminate Hempty.
  - exact Hsplit.
Defined.

(** ** Documents without anchors *)

Section NoAnchors.
Context `{Libs}.

Abbreviation plain := (fun d : node => Dom.is_anchor_href d = false).

Lemma find_all_none p l :
  filter (fun n : node => p n = true) l = [] -> Forall (fun n => p n = false) l.
Proof.
  induction l as [|n l IH]; [constructor |]. rewrite filter_cons.
  destruct (decide (p n = true)) as [Hp | Hp]; [done |].
  intros Hl. constructor; [by destruct (p n) | by apply IH].
Qed.

Lemma plain_children nm a cs :
  Forall plain (Dom.descendants (Tag nm a cs)) ->
  Forall (fun c => plain c /\ Forall plain (Dom.descendants c)) cs.
Proof.
  simpl. intros Hall. rewrite Forall_forall in Hall.
  apply Forall_forall. intros c Hc. split.
  - apply Hall, list_elem_of_In, in_flat_map. exists c.
    split; [by apply list_elem_of_In | by left].
  - apply Forall_forall. intros d Hd.
    apply Hall, list_elem_of_In, in_flat_map. exists c.
    split; [by apply list_elem_of_In | right; by apply list_elem_of_In].
Qed.

Lemma inline_node_plain base_url n :
  plain n -> Forall plain (Dom.descendants n) -> inline_node base_url n = n.
Proof.
  induction n as [s | nm a cs IH] using node_induction; intros Hn Hd; [done |].
  unfold inline_node. fold inline_node. rewrite Hn. f_equal.
  apply plain_children in Hd.
  induction cs as [|c cs IHcs]; [done |].
  apply Forall_cons in IH as [IHc IH]. apply Forall_cons in Hd as [[Hc Hcd] Hd].
  simpl. rewrite IHc by done. f_equal. by apply IHcs.
Qed.

Lemma plain_soup s :
  Forall plain (Dom.soup_descendants s) ->
  Forall (fun c => plain c /\ Forall plain (Dom.descendants c)) s.
Proof. apply (plain_children EmptyString [] s). Qed.

Lemma inline_links_plain base_url s :
  Forall plain (Dom.soup_descendants s) -> inline_links base_url s = s.
Proof.
  intros Hs. apply plain_soup in Hs. unfold inline_links.
  induction Hs as [|c cs [Hc Hd] _ IH]; [done |].
  simpl. by rewrite inline_node_plain, IH.
Qed.

Lemma decompose_plain names n :
  plain n -> Forall plain (Dom.descendants n) ->
  Forall (fun m => plain m /\ Forall plain (Dom.descendants m)) (Dom.decompose names n).
Proof.
  induction n as [s | nm a cs IH] using node_induction; intros Hn Hd.
  { by repeat constructor. }
  simpl. destruct (existsb (String.eqb nm) names); [constructor |].
  constructor; [| constructor]. split; [exact Hn |].
  apply plain_children in Hd. simpl.
  apply Forall_forall. intros d Hd'.
  apply list_elem_of_In, in_flat_map in Hd' as (m & Hm & Hd').
  apply in_flat_map in Hm as (c & Hc & Hm).
  rewrite Forall_forall in IH, Hd.
  apply list_elem_of_In in Hc. destruct (Hd c Hc) as [Hpc Hpd].
  pose proof (IH c Hc Hpc Hpd) as Hdec. rewrite Forall_forall in Hdec.
  apply list_elem_of_In in Hm. destruct (Hdec m Hm) as [Hpm Hpmd].
  destruct Hd' as [<- | Hd']; [done |].
  rewrite Forall_forall in Hpmd. by apply Hpmd, list_elem_of_In.
Qed.

Lemma decompose_all_plain names s :
  Forall plain (Dom.soup_descendants s) ->
  Forall plain (Dom.soup_descendants (Dom.decompose_all names s)).
Proof.
  intros Hs. apply plain_soup in Hs. rewrite Forall_forall in Hs.
  apply Forall_forall. intros d Hd. unfold Dom.soup_descendants, Dom.decompose_all in Hd.
  apply list_elem_of_In, in_flat_map in Hd as (m & Hm & Hd).
  apply in_flat_map in Hm as (c & Hc & Hm).
  apply list_elem_of_In in Hc. destruct (Hs c Hc) as [Hpc Hpd].
  pose proof (decompose_plain names c Hpc Hpd) as Hdec. rewrite Forall_forall in Hdec.
  apply list_elem_of_In in Hm. destruct (Hdec m Hm) as [Hpm Hpmd].
  destruct Hd as [<- | Hd]; [done |].
  rewrite Forall_forall in Hpmd. by apply Hpmd, list_elem_of_In.
Qed.

Lemma reselect_same html selector t :
  reselect html selector = Some t -> t = apply_selector html selector.
Proof.
  unfold reselect, apply_selector. destruct selector as [sel|]; [| by intros [= <-]].
  destruct (Py.truthy sel); [| by intros [= <-]].
  destruct (select sel html) as [[|e es]|]; [| | done]; by intros [= <-].
Qed.

(** X15: when the document (as narrowed by the selector) has no anchor with
    an href, asking for links changes nothing: the call returns what it
    returns without links, and the link list is empty. *)
Theorem no_anchors_no_difference html selector base_url r :
  Dom.find_all Dom.is_anchor_href (apply_selector html selector) = [] ->
  extract_text_with_inline_links html selector true base_url = Some r ->
  extract_text_with_inline_links html selector false base_url = Some r
  /\ ex_links r = [].
Proof.
  intros Hnone. unfold extract_text_with_inline_links. simpl.
  destruct (opt_truthy base_url); [| by intros [= <-]].
  destruct (reselect html selector) as [t|] eqn:Et; [| done].
  apply reselect_same in Et as ->. intros [= <-]. simpl.
  unfold remove_duplicates, collect_links. rewrite Hnone. simpl.
  rewrite inline_links_plain; [done |].
  apply decompose_all_plain, find_all_none, Hnone.
Qed.

End NoAnchors.

Lemma no_anchors_no_difference_witness :
  extract_text_with_inline_links stuck_page None false (Some "https://a.test/list")
  = Some {| ex_text := "Staff Z" +:+ String Py.nl "Next"; ex_links := [] |}.
Proof.
  apply (no_anchors_no_difference stuck_page None (Some "https://a.test/list")).
  - vm_compute. reflexivity.
  - vm_compute. reflexivity.
Defined.

(** ** More on [strip] *)

Lemma length_lstrip s : (String.length (Py.lstrip s) <= String.length s)%nat.
Proof. induction s as [|a s IH]; simpl; [lia |]. destruct (Py.is_space a); simpl; lia. Qed.

Lemma length_rstrip s : (String.length (Py.rstrip s) <= String.length s)%nat.
Proof.
  induction s as [|a s IH]; simpl; [lia |].
  destruct (Py.rstrip s); [destruct (Py.is_space a) |]; simpl in *; lia.
Qed.

Lemma lstrip_fixed_head a t :
  Py.lstrip (String a t) = String a t -> Py.is_space a = false.
Proof.
  simpl. destruct (Py.is_space a); [| done]. intros Heq.
  pose proof (length_lstrip t) as Hl. rewrite Heq in Hl. simpl in Hl. lia.
Qed.

(** A string that [strip] leaves alone has no blank at either end. *)
Lemma strip_fixed u : Py.strip u = u -> Py.lstrip u = u /\ Py.rstrip u = u.
Proof.
  unfold Py.strip. intros Heq.
  assert (Hl : Py.lstrip u = u).
  { pose proof (length_rstrip (Py.lstrip u)) as H1. rewrite Heq in H1.
    destruct u as [|a t]; [done |]. simpl in *.
    destruct (Py.is_space a); [| done].
    pose proof (length_lstrip t). lia. }
  split; [done |]. by rewrite Hl in Heq.
Qed.

Lemma lstrip_append u s :
  Py.lstrip u = u -> Py.truthy u = true -> Py.lstrip (u +:+ s) = u +:+ s.
Proof.
  destruct u as [|a t]; [done |]. intros Hu%lstrip_fixed_head _. simpl. by rewrite Hu.
Qed.

Lemma rstrip_append u s :
  Py.rstrip (u +:+ s)
  = match Py.rstrip s with
    | EmptyString => Py.rstrip u
    | r => u +:+ r
    end.
Proof.
  induction u as [|a u IH].
  - change (EmptyString +:+ s) with s. by destruct (Py.rstrip s).
  - change (String a u +:+ s) with (String a (u +:+ s)).
    change (Py.rstrip (String a (u +:+ s)))
      with (match Py.rstrip (u +:+ s) with
            | EmptyString => if Py.is_space a then EmptyString else String a EmptyString
            | r => String a r
            end).
    rewrite IH. destruct (Py.rstrip s) as [|b r]; [done |]. by destruct u.
Qed.



(** ** Saved files and their combination *)



Lemma combine_step_counts acc idx file :
  total_files (combine_step acc (idx, file))
    = (total_files acc + (if has_content file then 1 else 0))%nat
  /\ List.length (combined_lines (combine_step acc (idx, file)))
     = (List.length (combined_lines acc) + (if has_content file then 9 else 0))%nat.
Proof.
  destruct file as [name [raw|]]; unfold combine_step, has_content; simpl; [| lia].
  destruct (Py.truthy (Py.strip raw)); simpl; [| lia]. rewrite length_app. simpl. lia.
Qed.

Lemma combine_fold files : forall acc,
  total_files (fold_left combine_step files acc)
    = (total_files acc + List.length (filter (fun f => has_content f.2 = true) files))%nat
  /\ List.length (combined_lines (fold_left combine_step files acc))
     = (List.length (combined_lines acc)
        + 9 * List.length (filter (fun f => has_content f.2 = true) files))%nat.
Proof.
  induction files as [|[idx file] files IH]; intros acc; [simpl; lia |].
  cbn [fold_left]. destruct (IH (combine_step acc (idx, file))) as [Hf Hl].
  destruct (combine_step_counts acc idx file) as [Hf1 Hl1].
  rewrite Hf, Hl, Hf1, Hl1, filter_cons. cbn [snd].
  destruct (decide (has_content file = true)) as [-> | Hn]; [simpl; lia |].
  destruct (has_content file); [done | simpl; lia].
Qed.

Lemma numbered_files {A} (l : list A) : forall start,
  map snd (combine (seq start (List.length l)) l) = l.
Proof. induction l as [|x l IH]; intros start; simpl; [done | by rewrite IH]. Qed.

Lemma filter_numbered {A} (p : A -> bool) (l : list (nat * A)) :
  List.length (filter (fun f => p f.2 = true) l)
  = List.length (filter (fun x => p x = true) (map snd l)).
Proof.
  induction l as [|[i x] l IH]; [done |]. simpl.
  rewrite !filter_cons. simpl. destruct (decide (p x = true)); simpl; by rewrite IH.
Qed.

(** X17: [combine_all_text_files] fails exactly when no file is readable
    and non-blank; otherwise it counts exactly those files and adds one block
    of nine entries for each. *)
Theorem combine_counts_files txt_files :
  match combine_all_text_files (Some txt_files) with
  | None => filter (fun f => has_content f = true) txt_files = []
  | Some result =>
      total_files result
        = List.length (filter (fun f => has_content f = true) txt_files)
      /\ (1 <= total_files result)%nat
      /\ List.length (combined_lines result) = (9 * total_files result)%nat
  end.
Proof.
  unfold combine_all_text_files. destruct txt_files as [|f fs] eqn:Ef; [done |].
  rewrite <- Ef. clear Ef.
  destruct (combine_fold (combine (seq 1 (List.length txt_files)) txt_files)
              {| combined_lines := []; total_files := 0; total_size := 0 |}) as [Hf Hl].
  simpl in Hf, Hl. rewrite (filter_numbered has_content), numbered_files in Hf, Hl.
  destruct (combined_lines (fold_left combine_step _ _)) as [|l ls] eqn:El.
  - simpl in Hl. apply length_zero_iff_nil. lia.
  - rewrite El. simpl in Hl. simpl. lia.
Qed.

Example combine_skips_blank_files :
  total_files <$>
    combine_all_text_files
      (Some [ ("a.txt", Some "   "); ("b.txt", None);
              ("c.txt", Some ("https://a.test/list" +:+ blank_line +:+ "Hello" +:+ newline)) ])
  = Some 1%nat.
Proof. vm_compute. reflexivity. Qed.

(** ** Batch input *)

Lemma partition_append c u s :
  Text.has_char c u = false -> Text.partition c (u +:+ String c s) = (u, Some s).
Proof.
  induction u as [|a u IH]; simpl.
  - intros _. by rewrite Ascii.eqb_refl.
  - intros [Ha Hu]%orb_false_elim. by rewrite Ha, IH.
Qed.

Lemma startswith_append u s p :
  Py.truthy u = true -> Py.startswith (u +:+ s) (String p EmptyString)
                        = Py.startswith u (String p EmptyString).
Proof.
  destruct u as [|a t]; [done |]. intros _.
  change (String a t +:+ s) with (String a (t +:+ s)). simpl.
  generalize (t +:+ s). intros ts. by destruct t, ts.
Qed.

(** X18: a line [URL|SELECTOR] of the batch text file is read back as
    exactly that pair, provided the address is non-empty, is no comment, has
    no bar and no blank at either end, and the selector has no blank at
    either end. *)
Theorem batch_line_round_trip url selector :
  Py.strip url = url -> Py.truthy url = true ->
  Py.startswith url "#" = false -> Text.has_char "|" url = false ->
  Py.strip selector = selector ->
  parse_line (url +:+ "|" +:+ selector +:+ newline)
  = [ {| pair_url := url; pair_selector := selector |} ].
Proof.
  intros Hsu Htu Hcomment Hbar Hss.
  assert (Hline : Py.strip (url +:+ "|" +:+ selector +:+ newline)
                  = url +:+ "|" +:+ selector).
  { destruct (strip_fixed _ Hsu) as [Hl Hr]. destruct (strip_fixed _ Hss) as [_ Hrs].
    unfold Py.strip. rewrite lstrip_append by done.
    rewrite rstrip_append.
    change ("|" +:+ selector +:+ newline) with (String "|" (selector +:+ newline)).
    assert (Py.rstrip (String "|" (selector +:+ newline)) = String "|" selector) as ->; [| done].
    change (String "|" (selector +:+ newline)) with ("|" +:+ (selector +:+ newline)).
    rewrite rstrip_append, rstrip_append. simpl (Py.rstrip newline). rewrite Hrs.
    by destruct selector. }
  unfold parse_line. rewrite Hline.
  assert (Py.truthy (url +:+ "|" +:+ selector) = true) as -> by (by destruct url).
  rewrite startswith_append, Hcomment by done. simpl.
  change (url +:+ "|" +:+ selector) with (url +:+ String "|" selector).
  rewrite partition_append by done. by rewrite Hsu, Hss.
Qed.

Lemma batch_line_round_trip_witness :
  parse_line ("https://a.test/list|.staff" +:+ newline)
  = [ {| pair_url := "https://a.test/list"; pair_selector := ".staff" |} ].
Proof.
  apply (batch_line_round_trip "https://a.test/list" ".staff"); vm_compute; reflexivity.
Defined.

(** Blank lines and comments add nothing; a failed read gives no pairs. *)
Example batch_text_example :
  load_batch_from_text
    (Some [ "# staff pages" +:+ newline; newline;
            "  https://a.test/list | .staff  " +:+ newline; "https://b.test" ])
  = [ {| pair_url := "https://a.test/list"; pair_selector := ".staff" |};
      {| pair_url := "https://b.test"; pair_selector := EmptyString |} ]
  /\ load_batch_from_text None = [].
Proof. split; vm_compute; reflexivity. Qed.

(** ** Batch processing *)

Section BatchFacts.
Context `{Libs}.
Variable world_of : string -> World.
Variable save_ok : string -> bool.
Variables (use_js include_links : bool).




End BatchFacts.

(** A batch over the three-page listing, a blank entry and a bare host. *)
Example process_batch_example :
  map (fun r => (br_url r, br_status r, br_pages_extracted r))
    (process_batch (fun _ => listing_world) (fun _ => true) false true
       [ {| pair_url := " https://a.test/list "; pair_selector := EmptyString |};
         {| pair_url := "  "; pair_selector := ".x" |};
         {| pair_url := "b.test/none"; pair_selector := EmptyString |} ])
  = [ ("https://a.test/list", batch_success, Some 3%nat);
      ("https://b.test/none", batch_failed, None) ].
Proof. vm_compute. reflexivity. Qed.

Lemma three_activation_errors_stop_witness :
  (List.length
     (appended (extract_with_js_pagination failing_session "https://a.test/list" None true
                  false 1)) <= 3)%nat.
Proof.
  apply (three_activation_errors_stop failing_session "https://a.test/list" None true
           false 1).
  intros j. reflexivity.
Defined.

Lemma stored_content_has_every_page_witness :
  exists doc result why,
    extraction_doc true
      (extract_all_pages_recursive listing_world "https://a.test/list" false None true
         false 1) = Some doc
    /\ extract_all_pages_recursive listing_world "https://a.test/list" false None true
         false 1 = Returned result why
    /\ doc_pages_extracted doc = List.length (map pr_text result).
Proof.
  assert (Hdoc : exists doc,
            extraction_doc true
              (extract_all_pages_recursive listing_world "https://a.test/list" false None
                 true false 1) = Some doc)
    by (eexists; vm_compute; reflexivity).
  destruct Hdoc as [doc Hdoc].
  destruct (stored_content_has_every_page listing_world "https://a.test/list" false None
              true false 1 doc Hdoc) as (result & why & Hrun & _ & _ & Hcount & _).
  exists doc, result, why. split; [exact Hdoc |]. split; [exact Hrun | exact Hcount].
Defined.

(** The stored document of the three-page listing. *)
Example stored_listing_document :
  (fun doc => (doc_pages_extracted doc, doc_total_links doc)) <$>
    extraction_doc true
      (extract_all_pages_recursive listing_world "https://a.test/list" false None true
         false 1)
  = Some (3%nat, 3%nat).
Proof. vm_compute. reflexivity. Qed.
